(** * genAI_first_steps: the two LangGraph command-line assistants

    A shallow embedding of [src/hello_lg2.py], which holds two programs:

    - [hello_lg2.py] proper (lines 1-147): the arithmetic assistant, embedded
      in [Module HelloLg2], its command-line loop in [Module HelloLg2Cli];
    - [siebel_pm_assist - v5.py] (lines 150-388): the product-model
      assistant, embedded in [Module SiebelPmAssist].

    Modelling conventions.

    - A Python [str] is a Rocq [string] holding its UTF-8 encoding.  What
      the code does with the bytes as they are (prefix tests, joining,
      replacing and splitting at ASCII separators, comparisons) is computed.
      What depends on the interpreter's Unicode data ([str.upper],
      [str.lower], [str.strip], the characters of a text, the classes [\d],
      [\w] and [\b] of [re], the digits [int] reads) is a field of the class
      [Externals]; the class states what the interpreter guarantees: on
      ASCII text these functions are the ASCII ones of [Module PyStr], and
      a decimal character is alphanumeric and has a value from 0 to 9.
    - A Python [int] is a [Z].  Reading a numeral of more than
      [max_str_digits] digits and writing a number of more than that many
      digits raise [ValueError] ([sys.get_int_max_str_digits()]: 4300
      unless configured, 0 for no limit).
    - A [TypedDict(total=False)] is a record of [option] fields; a node's
      returned dict is a partial update merged into the graph state.
    - Everything the programs reach outside themselves (the hosted chat
      model, [uuid.uuid4], [json.loads], [json.dumps], the console) is a
      field of the class [Externals]; calls are numbered so that two calls
      may answer differently.  [json.loads] either returns a value or
      raises [json.JSONDecodeError]; the parser's recursion limit is not
      modelled.
    - [graph.invoke(state)] runs the nodes along the edges: it reads from
      its argument the keys of [State], hands each node a dict of the
      current values and merges the dict the node returns into them.
    - Python exceptions are the [Raise] results of [res] and of the monad
      [M]. *)

From Stdlib Require Import ZArith NArith Ascii DecimalString.
From Stdlib Require DecimalPos.
From stdpp Require Import gmap strings list fin_maps.

Local Open Scope Z_scope.

(* ===================================================================== *)
(** * Python strings, as far as ASCII goes                                *)
(* ===================================================================== *)

Module PyStr.

(** ['0'..'9'] *)
Definition is_digit (c : ascii) : bool :=
  let n := nat_of_ascii c in (48 <=? n)%nat && (n <=? 57)%nat.

Definition is_upper (c : ascii) : bool :=
  let n := nat_of_ascii c in (65 <=? n)%nat && (n <=? 90)%nat.

Definition is_lower (c : ascii) : bool :=
  let n := nat_of_ascii c in (97 <=? n)%nat && (n <=? 122)%nat.

(** The ASCII letters and digits. *)
Definition is_letter_or_digit (c : ascii) : bool :=
  is_digit c || is_upper c || is_lower c.

(** The ASCII whitespace: TAB, LF, VT, FF, CR, FS, GS, RS, US and the
    space. *)
Definition is_space (c : ascii) : bool :=
  let n := nat_of_ascii c in
  ((9 <=? n)%nat && (n <=? 13)%nat) || ((28 <=? n)%nat && (n <=? 32)%nat).

(** Every byte of [s] is below 128: [s.isascii()]. *)
Fixpoint is_ascii (s : string) : bool :=
  match s with
  | EmptyString => true
  | String c s' => (nat_of_ascii c <? 128)%nat && is_ascii s'
  end.

Definition upper_char (c : ascii) : ascii :=
  if is_lower c then ascii_of_nat (nat_of_ascii c - 32) else c.

Definition lower_char (c : ascii) : ascii :=
  if is_upper c then ascii_of_nat (nat_of_ascii c + 32) else c.

Fixpoint map_chars (f : ascii -> ascii) (s : string) : string :=
  match s with
  | EmptyString => EmptyString
  | String c s' => String (f c) (map_chars f s')
  end.

(** [s.upper()] and [s.lower()] for an ASCII [s]. *)
Definition ascii_upper (s : string) : string := map_chars upper_char s.
Definition ascii_lower (s : string) : string := map_chars lower_char s.

(** [s.lstrip()] for an ASCII [s]. *)
Fixpoint ascii_lstrip (s : string) : string :=
  match s with
  | String c s' => if is_space c then ascii_lstrip s' else s
  | EmptyString => EmptyString
  end.

(** [s.rstrip()] for an ASCII [s]: a character is kept when something that
    is kept follows it or when it is not whitespace. *)
Fixpoint ascii_rstrip (s : string) : string :=
  match s with
  | String c s' =>
      match ascii_rstrip s' with
      | EmptyString => if is_space c then EmptyString else String c EmptyString
      | r => String c r
      end
  | EmptyString => EmptyString
  end.

(** [s.strip()] for an ASCII [s]. *)
Definition ascii_strip (s : string) : string := ascii_rstrip (ascii_lstrip s).

(** [s.startswith(p)]. *)
Definition startswith (s p : string) : bool := String.prefix p s.

(** [sep.join(l)]. *)
Fixpoint join (sep : string) (l : list string) : string :=
  match l with
  | [] => ""
  | [x] => x
  | x :: l' => x +:+ sep +:+ join sep l'
  end.

(** [s.replace(old, "")] for a non-empty [old]: every occurrence found
    scanning left to right is dropped; the scan resumes after it.  [skip]
    counts the characters of an occurrence still to drop. *)
Fixpoint remove_all_from (skip : nat) (old s : string) : string :=
  match s with
  | EmptyString => EmptyString
  | String c s' =>
      match skip with
      | S k => remove_all_from k old s'
      | O =>
          if String.prefix old s
          then remove_all_from (String.length old - 1) old s'
          else String c (remove_all_from 0 old s')
      end
  end.

Definition remove_all (old s : string) : string := remove_all_from 0 old s.

(** [s.split(sep)] for a one-character [sep]: the pieces between the
    separators, never an empty list. *)
Fixpoint split_on (sep : ascii) (s : string) : list string :=
  match s with
  | EmptyString => [EmptyString]
  | String c s' =>
      if Ascii.eqb c sep then EmptyString :: split_on sep s'
      else match split_on sep s' with
           | p :: ps => String c p :: ps
           | [] => [String c EmptyString]
           end
  end.

(** [s.replace(" ", "_")], a character for a character. *)
Definition spaces_to_underscores (s : string) : string :=
  map_chars (fun c => if Ascii.eqb c " "%char then "_"%char else c) s.

(** [s] between double quotes. *)
Definition q (s : string) : string :=
  String (ascii_of_nat 34) s +:+ String (ascii_of_nat 34) EmptyString.

(** The line feed. *)
Definition nl : string := String (ascii_of_nat 10) EmptyString.

(** [k] copies of [s], one after the other: [s * k]. *)
Fixpoint times (k : nat) (s : string) : string :=
  match k with
  | O => EmptyString
  | S k' => s +:+ times k' s
  end.

(** The decimal numeral of [n], with a minus sign when negative: what
    [str(n)] returns when it returns. *)
Definition str (n : Z) : string := NilZero.string_of_int (Z.to_int n).

End PyStr.

(* ===================================================================== *)
(** * Values, exceptions and the outside world                            *)
(* ===================================================================== *)

#[local] Set Warnings "-register-all".

(** What [json.loads] returns and what [json.dumps] takes: a dict keeps
    its items in insertion order. *)
Inductive json : Type :=
  | JNull
  | JBool (b : bool)
  | JInt (n : Z)
  | JFloat (lexeme : string)
  | JStr (s : string)
  | JArr (items : list json)
  | JObj (fields : list (string * json)).

(** [d.get(key)] on the items of a dict. *)
Fixpoint dict_get (key : string) (fields : list (string * json)) : option json :=
  match fields with
  | [] => None
  | (k, v) :: rest => if String.eqb k key then Some v else dict_get key rest
  end.

(** The exceptions the modelled code can raise. *)
Inductive exn : Type :=
  | AttributeError   (* [x.get] or [x.upper] on a value that has none *)
  | TypeError        (* iterating, or assigning an item of, a wrong value *)
  | ValidationError  (* a tool called with an argument of the wrong type *)
  | ValueError       (* [int] or [str] beyond the limit of digits *)
  | GraphError.      (* the graph sent to a node that was never added *)

Inductive res (A : Type) : Type :=
  | Ok (a : A)
  | Raise (e : exn).
Arguments Ok {A} a.
Arguments Raise {A} e.

#[global] Instance res_ret : MRet res := fun A a => Ok a.
#[global] Instance res_bind : MBind res := fun A B k r =>
  match r with
  | Ok a => k a
  | Raise e => Raise e
  end.

(** The collaborators outside the programs, the interpreter among them.
    Calls that may answer differently from one call to the next take the
    number of the call. *)
Class Externals : Type := {
  (** [co.chat(model="command-r", message=prompt).text] at the [k]-th call *)
  co_chat : nat -> string -> string;
  (** [str(uuid.uuid4())] at the [k]-th call *)
  uuid4 : nat -> string;
  (** [json.loads(text)]; [None] stands for [json.JSONDecodeError] *)
  json_loads : string -> option json;
  (** [json.dumps(value, indent=2)] *)
  json_dumps : json -> string;
  (** [str(value)], as [print] shows a value *)
  py_repr : json -> string;
  (** the line [input(prompt)] returns at the [k]-th call *)
  input_line : nat -> string;

  (** [s.upper()], [s.lower()] and [s.strip()] *)
  upper : string -> string;
  lower : string -> string;
  strip : string -> string;
  (** the characters of a str, as code points *)
  codepoints : string -> list N;
  (** a decimal character: what [\d] matches and [int] reads *)
  is_decimal : N -> bool;
  (** the digit a decimal character stands for *)
  decimal_value : N -> Z;
  (** an alphanumeric character: with the underscore, what [\w] matches *)
  is_alnum : N -> bool;
  (** [sys.get_int_max_str_digits()]; 0 says that there is no limit *)
  max_str_digits : nat;

  (** On ASCII text the interpreter's functions are the ASCII ones. *)
  upper_ascii : forall s, PyStr.is_ascii s = true -> upper s = PyStr.ascii_upper s;
  lower_ascii : forall s, PyStr.is_ascii s = true -> lower s = PyStr.ascii_lower s;
  strip_ascii : forall s, PyStr.is_ascii s = true -> strip s = PyStr.ascii_strip s;
  codepoints_ascii : forall s,
    PyStr.is_ascii s = true ->
    codepoints s = map N_of_ascii (String.list_ascii_of_string s);
  is_decimal_ascii : forall c,
    (c < 128)%N -> is_decimal c = PyStr.is_digit (ascii_of_N c);
  is_alnum_ascii : forall c,
    (c < 128)%N -> is_alnum c = PyStr.is_letter_or_digit (ascii_of_N c);
  decimal_value_ascii : forall c,
    (48 <= c <= 57)%N -> decimal_value c = Z.of_N c - 48;
  (** Decimal characters are alphanumeric and stand for the digits 0 to 9. *)
  is_decimal_alnum : forall c, is_decimal c = true -> is_alnum c = true;
  decimal_value_range : forall c, is_decimal c = true -> 0 <= decimal_value c <= 9
}.

(** What the programs have done to the outside world so far: how many
    times the chat model, [uuid4] and [input] were called, and the lines
    written to the console. *)
Record World : Type := mkWorld {
  chats : nat;
  uuids : nat;
  inputs : nat;
  stdout : list string
}.

(** A computation that reads and changes the world and may raise. *)
Definition M (A : Type) : Type := World -> res (A * World).

#[global] Instance M_ret : MRet M := fun A a w => Ok (a, w).
#[global] Instance M_bind : MBind M := fun A B k m w =>
  match m w with
  | Ok (a, w') => k a w'
  | Raise e => Raise e
  end.

Definition lift {A : Type} (r : res A) : M A := fun w =>
  match r with
  | Ok a => Ok (a, w)
  | Raise e => Raise e
  end.

Section Effects.
Context `{Externals}.

(** [print(line)] *)
Definition print (line : string) : M unit := fun w =>
  Ok (tt, mkWorld (chats w) (uuids w) (inputs w) (stdout w ++ [line])).

(** [co.chat(model="command-r", message=prompt).text] *)
Definition chat (prompt : string) : M string := fun w =>
  Ok (co_chat (chats w) prompt, mkWorld (S (chats w)) (uuids w) (inputs w) (stdout w)).

(** [str(uuid.uuid4())] *)
Definition fresh_uuid : M string := fun w =>
  Ok (uuid4 (uuids w), mkWorld (chats w) (S (uuids w)) (inputs w) (stdout w)).

(** [input(prompt)]: the prompt is written, a line is read. *)
Definition input (prompt : string) : M string := fun w =>
  Ok (input_line (inputs w),
      mkWorld (chats w) (uuids w) (S (inputs w)) (stdout w ++ [prompt])).

End Effects.

(** A [for] loop whose body may raise: the state is threaded through the
    items in order and the first exception ends the loop. *)
Fixpoint for_each {S A : Type} (body : S -> A -> M S) (items : list A) (s : S) : M S :=
  match items with
  | [] => mret s
  | a :: rest => s' ← body s a; for_each body rest s'
  end.

(* ===================================================================== *)
(** * re.findall(r"\b\d+\b", text)                                        *)
(* ===================================================================== *)

Module Re.

Section Pattern.
Context `{Externals}.

(** [\w]: an alphanumeric character or the underscore. *)
Definition is_word (c : N) : bool := is_alnum c || (c =? 95)%N.

(** [\b] between a character whose word-ness is [prev_word] and the rest
    [s] of the text: exactly one side is a word character (the ends of the
    text count as non-word). *)
Definition at_boundary (prev_word : bool) (s : list N) : bool :=
  xorb prev_word
       match s with
       | c :: _ => is_word c
       | [] => false
       end.

(** [\d+\b] anchored at the head of [s], as the backtracking matcher runs
    it: a digit is consumed, the greedy [+] first tries to go on, and when
    the continuation fails the match is tried ending here, where [\b] must
    hold.  Returns the matched text and what follows it. *)
Fixpoint digits_then_boundary (s : list N) : option (list N * list N) :=
  match s with
  | c :: s' =>
      if is_decimal c then
        match digits_then_boundary s' with
        | Some (tok, rest) => Some (c :: tok, rest)
        | None =>
            if at_boundary true s' then Some ([c], s') else None
        end
      else None
  | [] => None
  end.

(** The whole pattern anchored at the head of [s]. *)
Definition match_here (prev_word : bool) (s : list N) : option (list N * list N) :=
  if at_boundary prev_word s then digits_then_boundary s else None.

(** The scan of [findall]: at each position the pattern is tried; after a
    match the scan resumes at its end, otherwise one character further.
    [skip] counts the characters of the last match still to step over. *)
Fixpoint scan (skip : nat) (prev_word : bool) (s : list N) : list (list N) :=
  match s with
  | [] => []
  | c :: s' =>
      match skip with
      | S k => scan k (is_word c) s'
      | O =>
          match match_here prev_word s with
          | Some (tok, _) => tok :: scan (length tok - 1) (is_word c) s'
          | None => scan 0 (is_word c) s'
          end
      end
  end.

(** The matches, each as the characters it is made of. *)
Definition findall_numbers (text : string) : list (list N) :=
  scan 0 false (codepoints text).

End Pattern.
End Re.

(* ===================================================================== *)
(** * hello_lg2.py: the arithmetic assistant                              *)
(* ===================================================================== *)

Module HelloLg2.
Import PyStr Re.

Section Program.
Context `{Externals}.

(** [class State(TypedDict, total=False)] *)
Record State : Type := mkState {
  user_input : option string;
  llm_response : option string;
  result : option string
}.

(** What the graph does with the dict a node returns: the keys it holds
    replace the state's. *)
Definition merge (st upd : State) : State :=
  {| user_input := from_option Some (user_input st) (user_input upd);
     llm_response := from_option Some (llm_response st) (llm_response upd);
     result := from_option Some (result st) (result upd) |}.

Definition set_llm_response (text : string) : State :=
  {| user_input := None; llm_response := Some text; result := None |}.

Definition set_result (text : string) : State :=
  {| user_input := None; llm_response := None; result := Some text |}.

(** ** Python integers *)

(** A numeral of [digits] digits is beyond the limit. *)
Definition too_long (digits : nat) : bool :=
  (0 <? max_str_digits)%nat && (max_str_digits <? digits)%nat.

(** The number [n] has more digits than the limit allows. *)
Definition too_big (n : Z) : bool :=
  (0 <? max_str_digits)%nat && (10 ^ Z.of_nat max_str_digits <=? Z.abs n).

(** The number a run of decimal characters stands for, most significant
    digit first. *)
Definition value (tok : list N) : Z :=
  fold_left (fun acc c => 10 * acc + decimal_value c) tok 0.

(** [int(tok)] for a [tok] without sign, spaces or underscores, which is
    what the pattern of the tools hands to it. *)
Definition int (tok : list N) : res Z :=
  match tok with
  | [] => Raise ValueError
  | _ =>
      if negb (forallb is_decimal tok) then Raise ValueError
      else if too_long (length tok) then Raise ValueError
      else Ok (value tok)
  end.

(** [f"{n}"] for an [int]. *)
Definition format_int (n : Z) : res string :=
  if too_big n then Raise ValueError else Ok (str n).

(** ** 3. Tools *)

Definition add_two_numbers (text : string) : res string :=
  match findall_numbers text with
  | n1 :: n2 :: _ =>
      a ← int n1;
      b ← int n2;
      sa ← format_int a;
      sb ← format_int b;
      sc ← format_int (a + b);
      mret ("The sum of " +:+ sa +:+ " and " +:+ sb +:+ " is " +:+ sc +:+ ".")
  | _ => mret "I couldn't find two numbers to add."
  end.

Definition subtract_two_numbers (text : string) : res string :=
  match findall_numbers text with
  | n1 :: n2 :: _ =>
      a ← int n1;
      b ← int n2;
      sb ← format_int b;
      sa ← format_int a;
      sc ← format_int (a - b);
      mret ("The difference when subtracting " +:+ sb +:+ " from " +:+ sa
              +:+ " is " +:+ sc +:+ ".")
  | _ => mret "I couldn't find two numbers to subtract."
  end.

Definition multiply_two_numbers (text : string) : res string :=
  match findall_numbers text with
  | n1 :: n2 :: _ =>
      a ← int n1;
      b ← int n2;
      sa ← format_int a;
      sb ← format_int b;
      sc ← format_int (a * b);
      mret ("The product of " +:+ sa +:+ " and " +:+ sb +:+ " is " +:+ sc +:+ ".")
  | _ => mret "I couldn't find two numbers to multiply."
  end.

(** ** 4. LLM node *)

Definition prompt (user_text : string) : string :=
  "You receive a user command: '" +:+ user_text +:+ "'.
" +:+ "If it's asking to add numbers or sum or total, respond only with 'ADD'.
" +:+ "If it's asking to subtract numbers or difference, respond only with 'SUBTRACT'.
" +:+ "If it's asking to multiply numbers or product, respond only with 'MULTIPLY'.
" +:+ "If it's none of the above, respond only with 'ECHO'.".

Definition interpret (state : State) : M State :=
  let user_text := default "" (user_input state) in
  response ← chat (prompt user_text);
  let text := upper (strip response) in
  _ ← print ("DEBUG LLM response: " +:+ text);
  mret (set_llm_response text).

(** ** 5. Tool nodes and 6. echo node *)

Definition call_add_tool (state : State) : M State :=
  result ← lift (add_two_numbers (default "" (user_input state)));
  mret (set_result result).

Definition call_subtract_tool (state : State) : M State :=
  result ← lift (subtract_two_numbers (default "" (user_input state)));
  mret (set_result result).

Definition call_multiply_tool (state : State) : M State :=
  result ← lift (multiply_two_numbers (default "" (user_input state)));
  mret (set_result result).

Definition echo (state : State) : M State :=
  mret (set_result ("You said: " +:+ default "" (user_input state))).

(** ** 7. The graph *)

(** The nodes [builder.add_node] registers, by name. *)
Definition nodes : gmap string (State -> M State) :=
  <["interpret" := interpret]>
  (<["add_tool" := call_add_tool]>
  (<["subtract_tool" := call_subtract_tool]>
  (<["multiply_tool" := call_multiply_tool]>
  (<["echo" := echo]> ∅)))).

(** The conditional edge out of [interpret]: the name of the next node. *)
Definition decide (state : State) : string :=
  let resp := default "" (llm_response state) in
  if startswith resp "ADD" then "add_tool"
  else if startswith resp "SUBTRACT" then "subtract_tool"
  else if startswith resp "MULTIPLY" then "multiply_tool"
  else "echo".

(** The graph runs the node of a name on the current values and merges
    the dict it returns into them. *)
Definition run_node (name : string) (state : State) : M State :=
  match nodes !! name with
  | Some node => update ← node state; mret (merge state update)
  | None => fun _ => Raise GraphError
  end.

(** [graph.invoke(state)]: START, [interpret], the node [decide] names,
    END. *)
Definition graph_invoke (state : State) : M State :=
  s1 ← run_node "interpret" state;
  run_node (decide s1) s1.

End Program.
End HelloLg2.

(* ===================================================================== *)
(** * siebel_pm_assist - v5.py: the product-model assistant               *)
(* ===================================================================== *)

Module SiebelPmAssist.
Import PyStr.

(** What the state holds under ["product_ids"]: the name to ProductId dict
    of [dispatcher], or a string when the command-line loop stored an
    answer under that key. *)
Inductive pyids : Type :=
  | IdsDict (table : gmap string json)
  | IdsStr (s : string).

(** What a tool returns: a str, or (from [create_product]) a dict. *)
Inductive tool_out : Type :=
  | OutStr (s : string)
  | OutDict (fields : list (string * json)).

(** [class State(TypedDict, total=False)] *)
Record State : Type := mkState {
  user_input : option string;
  llm_response : option json;
  result : option string;
  last_action : option json;
  product_ids : option pyids
}.

Definition merge (st upd : State) : State :=
  {| user_input := from_option Some (user_input st) (user_input upd);
     llm_response := from_option Some (llm_response st) (llm_response upd);
     result := from_option Some (result st) (result upd);
     last_action := from_option Some (last_action st) (last_action upd);
     product_ids := from_option Some (product_ids st) (product_ids upd) |}.

Definition set_llm_response (data : json) : State :=
  mkState None (Some data) None None None.

Definition set_result (text : string) : State :=
  mkState None None (Some text) None None.

(** ** Python operations on values *)

(** [v.get(key, dflt)]: only a dict has [get]. *)
Definition py_get (v : json) (key : string) (dflt : json) : res json :=
  match v with
  | JObj fields => Ok (default dflt (dict_get key fields))
  | _ => Raise AttributeError
  end.

(** [for x in v]: a list gives its items, a dict its keys, a str its
    characters (here one item for each byte: as many strs or more, and
    none exactly when the str is empty); nothing else is iterable. *)
Definition py_iter (v : json) : res (list json) :=
  match v with
  | JArr items => Ok items
  | JObj fields => Ok (map (fun kv => JStr (fst kv)) fields)
  | JStr s => Ok (map (fun c => JStr (String c EmptyString)) (String.list_ascii_of_string s))
  | _ => Raise TypeError
  end.

(** A tool argument declared [str], as [tool.invoke] validates it. *)
Definition arg_str (v : json) : res string :=
  match v with
  | JStr s => Ok s
  | _ => Raise ValidationError
  end.

(** A tool argument declared [dict]. *)
Definition arg_dict (v : pyids) : res (gmap string json) :=
  match v with
  | IdsDict table => Ok table
  | IdsStr _ => Raise ValidationError
  end.

(** [not s] for a str. *)
Definition is_empty (s : string) : bool := String.eqb s "".

(** How a run of the command-line loop stands when it is looked at: ended
    by exit or quit, waiting at the "You: " prompt, both with the loop's
    [state] dict, or still inside the repair loop of a turn. *)
Inductive run : Type :=
  | Exited (state : gmap string string)
  | Asking (state : gmap string string)
  | Repairing.

Section Program.
Context `{Externals}.

(** [v.upper()]: only a str has [upper]. *)
Definition py_upper (v : json) : res string :=
  match v with
  | JStr s => Ok (upper s)
  | _ => Raise AttributeError
  end.

(** ** 3. Tools *)

Definition create_product (name : string) : M tool_out :=
  if is_empty name then mret (OutStr "MISSING_FIELDS:Product Name")
  else
    product_id ← fresh_uuid;
    let payload :=
      JObj [("SWIProductIntegrationIO",
             JObj [("ProductName", JStr name); ("ProductId", JStr product_id)])] in
    _ ← print "Sample REST request for product creation:";
    _ ← print (json_dumps payload);
    mret (OutDict [("ProductId", JStr product_id); ("name", JStr name)]).

(** The list [create_pricelist] builds with its four [append]s. *)
Definition missing_fields (name product price currency : string) : list string :=
  let missing := [] in
  let missing := if is_empty name then missing ++ ["Price List Name"] else missing in
  let missing := if is_empty product then missing ++ ["Product"] else missing in
  let missing := if is_empty price then missing ++ ["Price"] else missing in
  let missing := if is_empty currency then missing ++ ["Currency Code"] else missing in
  missing.

Definition create_pricelist (name product price currency : string)
    (product_ids : option (gmap string json)) : string :=
  let missing := missing_fields name product price currency in
  match missing with
  | _ :: _ => "MISSING_FIELDS:" +:+ join "," missing
  | [] =>
      let product_id :=
        match product_ids with
        | Some table =>
            if decide (table = ∅) then JStr product
            else default (JStr product) (table !! product)
        | None => JStr product
        end in
      let payload :=
        JObj [("SWIISSPriceListItemIO",
               JObj [("PriceListId", JStr name); ("ProductId", product_id);
                     ("Price", JStr price); ("Currency", JStr currency)])] in
      "Sample REST request for Siebel price list item:
" +:+ json_dumps payload
  end.

Definition create_promotion (name : string) : string :=
  if is_empty name then "MISSING_FIELDS:Promotion Name"
  else "Created promotion: " +:+ name.

Definition create_product_class (name : string) : string :=
  if is_empty name then "MISSING_FIELDS:Product Class Name"
  else "Created product class: " +:+ name.

Definition create_product_line (name : string) : string :=
  if is_empty name then "MISSING_FIELDS:Product Line Name"
  else "Created product line: " +:+ name.

Definition create_product_attributes (name : string) : string :=
  if is_empty name then "MISSING_FIELDS:Product Attributes Name"
  else "Created product attributes: " +:+ name.

Definition create_product_eligibility (name : string) : string :=
  if is_empty name then "MISSING_FIELDS:Product Eligibility Name"
  else "Created product eligibility for: " +:+ name.

Definition create_product_compatibility (name : string) : string :=
  if is_empty name then "MISSING_FIELDS:Product Compatibility Name"
  else "Created product compatibility for: " +:+ name.

(** ** 4. LLM node *)

Definition prompt (user_text : string) : string :=
  "You receive a user command: '" +:+ user_text +:+ "'.
" +:+ "Identify all Siebel actions mentioned. Respond only with valid JSON.
" +:+ "Keys: 'actions' (list). Each action is an object with:
" +:+ "  - 'type': one of ['CREATEPRODUCT','CREATEPRICELIST','CREATEPROMOTION','CREATEPRODUCTCLASS',
" +:+ "    'CREATEPRODUCTLINE','CREATEPRODUCTATTRIBUTES','CREATEPRODUCTELIGIBILITY','CREATEPRODUCTCOMPATIBILITY']
" +:+ "  - 'name': entity name (string, empty if missing)
" +:+ "  - For CREATEPRICELIST also include 'product', 'price', 'currency' if provided.
" +:+ "Example: {" +:+ q "actions" +:+ ": [
" +:+ "  {" +:+ q "type" +:+ ": " +:+ q "CREATEPRODUCT" +:+ ", " +:+ q "name" +:+ ": "
  +:+ q "iPhone 16" +:+ "},
" +:+ "  {" +:+ q "type" +:+ ": " +:+ q "CREATEPRICELIST" +:+ ", " +:+ q "name" +:+ ": "
  +:+ q "NA pricelist" +:+ ", " +:+ q "product" +:+ ": " +:+ q "iPhone 16" +:+ ", "
  +:+ q "price" +:+ ": " +:+ q "1000" +:+ ", " +:+ q "currency" +:+ ": " +:+ q "USD" +:+ "}
" +:+ "]}
" +:+ "If no valid action found, respond with {" +:+ q "actions" +:+ ": []}.".

Definition no_actions : json := JObj [("actions", JArr [])].

Definition interpret (state : State) : M State :=
  let user_text := default "" (user_input state) in
  response ← chat (prompt user_text);
  let data :=
    match json_loads (strip response) with
    | Some data => data
    | None => no_actions
    end in
  _ ← print ("DEBUG LLM response: " +:+ py_repr data);
  mret (set_llm_response data).

(** ** 5. Dispatcher node *)

(** The [tool_map] dict of [dispatcher]. *)
Definition tool_map : gmap string (string -> M tool_out) :=
  <["CREATEPROMOTION" := fun name => mret (OutStr (create_promotion name))]>
  (<["CREATEPRODUCT" := create_product]>
  (<["CREATEPRODUCTCLASS" := fun name => mret (OutStr (create_product_class name))]>
  (<["CREATEPRODUCTLINE" := fun name => mret (OutStr (create_product_line name))]>
  (<["CREATEPRODUCTATTRIBUTES" := fun name => mret (OutStr (create_product_attributes name))]>
  (<["CREATEPRODUCTELIGIBILITY" := fun name => mret (OutStr (create_product_eligibility name))]>
  (<["CREATEPRODUCTCOMPATIBILITY" :=
       fun name => mret (OutStr (create_product_compatibility name))]> ∅)))))).

(** What the [for] loop of [dispatcher] changes: [state["product_ids"]]
    and the list [results]. *)
Record Loop : Type := mkLoop {
  ids : pyids;
  results : list string
}.

(** [state["product_ids"][name] = value] *)
Definition set_item (v : pyids) (name : string) (value : json) : res pyids :=
  match v with
  | IdsDict table => Ok (IdsDict (<[name := value]> table))
  | IdsStr _ => Raise TypeError
  end.

(** What [results.append] receives for a tool's result. *)
Definition result_text (result : tool_out) : string :=
  match result with
  | OutDict fields => json_dumps (JObj fields)
  | OutStr text => text
  end.

(** One pass through the body of [for action in actions]. *)
Definition dispatch_action (s : Loop) (action : json) : M Loop :=
  ty ← lift (py_get action "type" (JStr ""));
  action_type ← lift (py_upper ty);
  name ← lift (py_get action "name" (JStr ""));
  if String.eqb action_type "CREATEPRICELIST" then
    product ← lift (py_get action "product" (JStr ""));
    price ← lift (py_get action "price" (JStr ""));
    currency ← lift (py_get action "currency" (JStr ""));
    name ← lift (arg_str name);
    product ← lift (arg_str product);
    price ← lift (arg_str price);
    currency ← lift (arg_str currency);
    table ← lift (arg_dict (ids s));
    let result := create_pricelist name product price currency (Some table) in
    mret (mkLoop (ids s) (results s ++ [result]))
  else
    match tool_map !! action_type with
    | Some tool_fn =>
        name ← lift (arg_str name);
        result ← tool_fn name;
        ids' ← lift (match result with
                     | OutDict fields =>
                         if String.eqb action_type "CREATEPRODUCT"
                         then set_item (ids s) name (default (JStr "") (dict_get "ProductId" fields))
                         else Ok (ids s)
                     | OutStr _ => Ok (ids s)
                     end);
        mret (mkLoop ids' (results s ++ [result_text result]))
    | None =>
        mret (mkLoop (ids s) (results s ++ ["Unknown action: " +:+ action_type]))
    end.

(** [dispatcher] up to the end of its loop: the loop's final state. *)
Definition run_actions (state : State) : M Loop :=
  actions ← lift (py_get (default (JObj []) (llm_response state)) "actions" (JArr []));
  let ids0 := default (IdsDict ∅) (product_ids state) in
  items ← lift (py_iter actions);
  for_each dispatch_action items (mkLoop ids0 []).

Definition dispatcher (state : State) : M State :=
  s ← run_actions state;
  let results :=
    match results s with
    | [] => ["You said: " +:+ default "" (user_input state)]
    | rs => rs
    end in
  mret (set_result (join nl results)).

(** ** 6. The graph *)

(** The state the graph starts from.  The command-line loop passes a dict
    of strings; the graph reads from it the keys of [State] and ignores
    the others. *)
Definition graph_input (input : gmap string string) : State :=
  {| user_input := input !! "user_input";
     llm_response := JStr <$> input !! "llm_response";
     result := input !! "result";
     last_action := JStr <$> input !! "last_action";
     product_ids := IdsStr <$> input !! "product_ids" |}.

(** [graph.invoke(state)]: START, [interpret], [dispatcher], END.  Each
    node receives the graph's current values as a dict of its own and the
    dict it returns is merged into them; what [dispatcher] stores in its
    own [state] goes no further. *)
Definition graph_invoke (input : gmap string string) : M State :=
  let s0 := graph_input input in
  u1 ← interpret s0;
  let s1 := merge s0 u1 in
  u2 ← dispatcher s1;
  mret (merge s1 u2).

(** ** 7. CLI loop with interactive prompting *)

(** [field.lower().replace(" ", "_")] *)
Definition normalize_key (field : string) : string :=
  spaces_to_underscores (lower field).

(** [for field in fields: state[...] = input(...)] *)
Definition ask_fields (fields : list string) (state : gmap string string)
    : M (gmap string string) :=
  for_each
    (fun state field =>
       value ← input ("Please provide " +:+ field +:+ ": ");
       mret (<[normalize_key field := value]> state))
    fields state.

(** The fields the loop reads out of a sentinel result. *)
Definition fields_of (result : string) : list string :=
  split_on "," (remove_all "MISSING_FIELDS:" result).

(** The inner [while True]; [fuel] bounds the number of [graph.invoke]
    calls, and [None] says that the loop was still asking when it ran
    out. *)
Fixpoint retry_loop (fuel : nat) (state : gmap string string)
    : M (option (gmap string string)) :=
  match fuel with
  | O => mret None
  | S fuel' =>
      new_state ← graph_invoke state;
      let result := default "…" (result new_state) in
      if startswith result "MISSING_FIELDS:" then
        state' ← ask_fields (fields_of result) state;
        retry_loop fuel' state'
      else
        _ ← print ("Bot: " +:+ result);
        mret (Some state)
  end.

(** The outer [while True]: [turns] bounds the lines read at the "You: "
    prompt and [fuel] the calls of [graph.invoke] in each of them. *)
Fixpoint main_loop (turns fuel : nat) (state : gmap string string) : M run :=
  match turns with
  | O => mret (Asking state)
  | S turns' =>
      user ← input "You: ";
      if String.eqb (lower user) "exit" || String.eqb (lower user) "quit" then
        _ ← print "Goodbye!";
        mret (Exited state)
      else
        r ← retry_loop fuel (<["user_input" := user]> state);
        match r with
        | Some state' => main_loop turns' fuel state'
        | None => mret Repairing
        end
  end.

(** [if __name__ == "__main__"] *)
Definition main (turns fuel : nat) : M run :=
  _ ← print "Siebel Product Model Assistant (type 'exit' or 'quit' to stop)";
  main_loop turns fuel ∅.

End Program.
End SiebelPmAssist.

(* ===================================================================== *)
(** * The words of the specification                                      *)
(* ===================================================================== *)

Module Spec.
Import PyStr.

Section Words.
Context `{Externals}.

(** The maximal run of word characters at the head of [s], and the rest. *)
Fixpoint take_word (s : list N) : list N * list N :=
  match s with
  | c :: s' =>
      if Re.is_word c then let (w, r) := take_word s' in (c :: w, r)
      else ([], s)
  | [] => ([], [])
  end.

(** The tokens of a text: its maximal runs of word characters, left to
    right. *)
Fixpoint tokens (s : list N) : list (list N) :=
  match s with
  | [] => []
  | c :: s' =>
      if Re.is_word c then
        match s' with
        | d :: _ =>
            if Re.is_word d then
              match tokens s' with
              | t :: ts => (c :: t) :: ts
              | [] => [[c]]
              end
            else [c] :: tokens s'
        | [] => [[c]]
        end
      else tokens s'
  end.

(** Modelled from the spec: "the integers appearing in the text (token
    boundary, unsigned decimal digits only)" are the tokens made of decimal
    digits alone, given as the characters of each. *)
Definition integers (text : list N) : list (list N) :=
  filter (fun t => Is_true (forallb is_decimal t)) (tokens text).

(** Modelled from the spec: "one of four handlers, with an unconditional
    default": the handler the arithmetic assistant runs for a label. *)
Definition handler_for (label : string) : HelloLg2.State -> M HelloLg2.State :=
  if startswith label "ADD" then HelloLg2.call_add_tool
  else if startswith label "SUBTRACT" then HelloLg2.call_subtract_tool
  else if startswith label "MULTIPLY" then HelloLg2.call_multiply_tool
  else HelloLg2.echo.

End Words.

(** [sub in s] *)
Fixpoint contains (sub s : string) : bool :=
  String.prefix sub s ||
  match s with
  | String _ s' => contains sub s'
  | EmptyString => false
  end.

(** "The sentinel lists exactly the human-readable names of the empty
    required fields, comma-separated": the names, in the order of the
    parameters, of the arguments that are empty. *)
Definition empty_field_names (name product price currency : string) : list string :=
  map snd
    (filter (fun kv => fst kv = "")
       [(name, "Price List Name"); (product, "Product");
        (price, "Price"); (currency, "Currency Code")]).

(** [action.get(key, "")] on the items of an action record. *)
Definition field (fields : list (string * json)) (key : string) : json :=
  default (JStr "") (dict_get key fields).

Definition is_str (v : json) : bool :=
  match v with
  | JStr _ => true
  | _ => false
  end.

(** An action record as the prompt asks for it: an object whose type,
    name, product, price and currency, where present, are strings. *)
Definition well_formed_action (a : json) : bool :=
  match a with
  | JObj fields =>
      forallb (fun key => is_str (field fields key))
        ["type"; "name"; "product"; "price"; "currency"]
  | _ => false
  end.

(** [a] is a product-creation action for the name [n]. *)
Definition creates_product `{Externals} (n : string) (a : json) : bool :=
  match a with
  | JObj fields =>
      match field fields "type", field fields "name" with
      | JStr t, JStr m => String.eqb (upper t) "CREATEPRODUCT" && String.eqb m n
      | _, _ => false
      end
  | _ => false
  end.

(** The dicts [create_product] builds for an identifier and a name. *)
Definition product_payload (product_id name : string) : json :=
  JObj [("SWIProductIntegrationIO",
         JObj [("ProductName", JStr name); ("ProductId", JStr product_id)])].

Definition product_result (product_id name : string) : json :=
  JObj [("ProductId", JStr product_id); ("name", JStr name)].

(** The dict [create_pricelist] builds. *)
Definition pricelist_payload (name : string) (product_id : json) (price currency : string)
    : json :=
  JObj [("SWIISSPriceListItemIO",
         JObj [("PriceListId", JStr name); ("ProductId", product_id);
               ("Price", JStr price); ("Currency", JStr currency)])].

(** The world after [create_product] minted an identifier and printed its
    two lines, the second being [printed]. *)
Definition after_create_product (printed : string) (w : World) : World :=
  mkWorld (chats w) (S (uuids w)) (inputs w)
    ((stdout w ++ ["Sample REST request for product creation:"]) ++ [printed]).

(** The world after [interpret] called the chat model and printed
    [printed]. *)
Definition after_interpret (printed : string) (w : World) : World :=
  mkWorld (S (chats w)) (uuids w) (inputs w) (stdout w ++ [printed]).

(** What [interpret] makes of the model's reply to the state's input in
    the world [w]: the parsed reply, or no actions. *)
Definition interpreted `{Externals} (input : gmap string string) (w : World) : json :=
  match
    json_loads
      (strip (co_chat (chats w)
                (SiebelPmAssist.prompt (default "" (input !! "user_input")))))
  with
  | Some data => data
  | None => SiebelPmAssist.no_actions
  end.

End Spec.

(* ===================================================================== *)
(** * A world to run the programs in                                      *)
(* ===================================================================== *)

Module Sample.
Import PyStr.

(** A compact rendering of a value, standing for [json.dumps] and [str]. *)
Fixpoint render (v : json) : string :=
  match v with
  | JNull => "null"
  | JBool true => "true"
  | JBool false => "false"
  | JInt n => str n
  | JFloat lexeme => lexeme
  | JStr s => q s
  | JArr items => "[" +:+ join ", " (map render items) +:+ "]"
  | JObj fields =>
      "{" +:+ join ", " (map (fun '(k, x) => q k +:+ ": " +:+ render x) fields) +:+ "}"
  end.

(** The world in which the chat model answers [replies] one after the
    other (and the last one for ever after), [json.loads] reads the texts
    listed in [parses], the console user types [lines] and then "quit",
    and the identifiers minted are "id-0", "id-1", ...  Its interpreter
    has the limit of 4300 digits and knows the ASCII characters only: it
    reads every byte as one character without case, class or value unless
    the byte is ASCII.  The examples run it on ASCII text, where every
    interpreter does the same. *)
Definition world (replies : list string) (parses : list (string * json))
    (lines : list string) : Externals :=
  {| co_chat := fun k _ => nth (Nat.min k (length replies - 1)) replies "";
     uuid4 := fun k => "id-" +:+ str (Z.of_nat k);
     json_loads := fun text => dict_get text parses;
     json_dumps := render;
     py_repr := render;
     input_line := fun k => nth k lines "quit";
     upper := ascii_upper;
     lower := ascii_lower;
     strip := ascii_strip;
     codepoints := fun s => map N_of_ascii (String.list_ascii_of_string s);
     is_decimal := fun c => (c <? 128)%N && is_digit (ascii_of_N c);
     decimal_value := fun c => Z.of_N c - 48;
     is_alnum := fun c => (c <? 128)%N && is_letter_or_digit (ascii_of_N c);
     max_str_digits := 4300;
     upper_ascii := fun _ _ => eq_refl;
     lower_ascii := fun _ _ => eq_refl;
     strip_ascii := fun _ _ => eq_refl;
     codepoints_ascii := fun _ _ => eq_refl;
     is_decimal_ascii := fun c Hc =>
       ltac:(cbv beta; apply N.ltb_lt in Hc; rewrite Hc; reflexivity);
     is_alnum_ascii := fun c Hc =>
       ltac:(cbv beta; apply N.ltb_lt in Hc; rewrite Hc; reflexivity);
     decimal_value_ascii := fun _ _ => eq_refl;
     is_decimal_alnum := fun c Hc =>
       ltac:(cbv beta in *; apply andb_true_iff in Hc as [-> Hd];
             unfold is_letter_or_digit; rewrite Hd; reflexivity);
     decimal_value_range := fun c Hc =>
       ltac:(cbv beta in *; apply andb_true_iff in Hc as [Hc Hd]; apply N.ltb_lt in Hc;
             apply andb_true_iff in Hd as [Hlo Hhi]; apply Nat.leb_le in Hlo, Hhi;
             unfold nat_of_ascii in Hlo, Hhi;
             rewrite N_ascii_embedding in Hlo, Hhi by lia; lia) |}.

Definition start : World := mkWorld 0 0 0 [].

(** The example of the specification. *)
Definition example_text : string := "add 3 apples and 5 oranges and 10 bananas".

Definition action (ty name : string) : json :=
  JObj [("type", JStr ty); ("name", JStr name)].

Definition pricelist_action (name product price currency : string) : json :=
  JObj [("type", JStr "CREATEPRICELIST"); ("name", JStr name);
        ("product", JStr product); ("price", JStr price); ("currency", JStr currency)].

Definition batch (actions : list json) : json := JObj [("actions", JArr actions)].

(** The chat model that always asks for the same price list without a
    currency, and the user who answers "USD" every time. *)
Definition stubborn_world : Externals :=
  world ["R"] [("R", batch [pricelist_action "NA pricelist" "iPhone 16" "1000" ""])]
    ["USD"; "USD"; "USD"; "USD"; "USD"].


(** The chat model that asks for a promotion, an action whose type is
    null and a product line; the user types "promote". *)
Definition null_type_world : Externals :=
  world ["R"]
    [("R", batch [action "CREATEPROMOTION" "Summer";
                  JObj [("type", JNull); ("name", JStr "x")];
                  action "CREATEPRODUCTLINE" "Phones"])]
    ["promote"].


(** The world with no replies, parses or lines. *)
Definition quiet_world : Externals := world [] [] [].

(** A text whose first integer has one digit more than the limit. *)
Definition long_text : string := times 4301 "9" +:+ " plus 1".

(** The chat model that answers "ADD" to a user who types a sum and then
    "EXIT". *)
Definition adding_world : Externals := world ["ADD"] [] ["add 2 and 3"; "EXIT"].

(** The chat model that pads its answer, in lower case, and goes on
    talking. *)
Definition chatty_world : Externals := world ["  add these, please
"] [] [].

(** The chat model that never answers in JSON, and a user who types one
    line and then "Quit". *)
Definition prose_world : Externals := world ["I can help with that!"] [] ["hello"; "Quit"].

(** The chat model that asks for a promotion and then for a price list
    without a currency. *)
Definition promotion_first_world : Externals :=
  world ["R"]
    [("R", batch [action "CREATEPROMOTION" "Summer";
                  pricelist_action "NA pricelist" "iPhone 16" "1000" ""])]
    [].

(** The loop and the world after the batch that creates "Widget" and then
    meets the unknown type "FOO". *)
Definition widget_loop : SiebelPmAssist.Loop :=
  SiebelPmAssist.mkLoop (SiebelPmAssist.IdsDict {["Widget" := JStr "id-0"]})
    [render (Spec.product_result "id-0" "Widget"); "Unknown action: FOO"].

Definition widget_after : World :=
  Spec.after_create_product (render (Spec.product_payload "id-0" "Widget")) start.

(** The chat model that asks for the product "Widget" and a price list for
    it. *)
Definition widget_world : Externals :=
  world ["R"]
    [("R", batch [action "CREATEPRODUCT" "Widget";
                  pricelist_action "NA pricelist" "Widget" "1000" "USD"])]
    ["create Widget and price it"].

End Sample.

(* ===================================================================== *)
(** * hello_lg2.py: the command-line loop                                 *)
(* ===================================================================== *)

Module HelloLg2Cli.
Import PyStr HelloLg2.

(** How a run of the loop stands when it is looked at: ended by exit or
    quit, or waiting at the "You: " prompt. *)
Inductive run : Type :=
  | Exited
  | Asking.

Section Program.
Context `{Externals}.

(** [user.lower() in ("exit", "quit")] *)
Definition is_exit (user : string) : bool :=
  String.eqb (lower user) "exit" || String.eqb (lower user) "quit".

(** The body of the loop for a line that does not end it: a fresh state
    with the line, one [graph.invoke], the result printed. *)
Definition turn (user : string) : M unit :=
  let state := mkState (Some user) None None in
  new_state ← graph_invoke state;
  print ("Bot: " +:+ default "â€¦" (result new_state)).

(** [while True]; [turns] bounds the lines read at the "You: " prompt. *)
Fixpoint main_loop (turns : nat) : M run :=
  match turns with
  | O => mret Asking
  | S turns' =>
      user ← input "You: ";
      if is_exit user then
        _ ← print "Goodbye!";
        mret Exited
      else
        _ ← turn user;
        main_loop turns'
  end.

End Program.
End HelloLg2Cli.

(* ===================================================================== *)
(** * Notions used to state what the programs do                          *)
(* ===================================================================== *)

Module Notions.
Import PyStr.

(** No character of [s] is ASCII whitespace. *)
Fixpoint no_space (s : string) : bool :=
  match s with
  | EmptyString => true
  | String c s' => negb (is_space c) && no_space s'
  end.

(** Every character of [s] is ASCII whitespace. *)
Fixpoint all_space (s : string) : bool :=
  match s with
  | EmptyString => true
  | String c s' => is_space c && all_space s'
  end.

(** The character [c] does not occur in [s]. *)
Fixpoint lacks (c : ascii) (s : string) : bool :=
  match s with
  | EmptyString => true
  | String d s' => negb (Ascii.eqb d c) && lacks c s'
  end.

(** The keys of [SiebelPmAssist.State]: what [graph.invoke] reads of the
    dict it is given. *)
Definition state_keys : list string :=
  ["user_input"; "llm_response"; "result"; "last_action"; "product_ids"].

(** [key in state_keys] *)
Definition is_state_key (key : string) : bool :=
  existsb (String.eqb key) state_keys.

(** The keys of [tool_map]. *)
Definition tool_names : list string :=
  ["CREATEPROMOTION"; "CREATEPRODUCT"; "CREATEPRODUCTCLASS"; "CREATEPRODUCTLINE";
   "CREATEPRODUCTATTRIBUTES"; "CREATEPRODUCTELIGIBILITY"; "CREATEPRODUCTCOMPATIBILITY"].

(** The prompt the repair loop shows for a field. *)
Definition field_prompt (field : string) : string :=
  "Please provide " +:+ field +:+ ": ".

(** The lines an echoed turn writes: the prompt, the debug line of
    [interpret] with [shown] for the parsed reply, and the echo. *)
Definition echoed_turn (shown line : string) : list string :=
  ["You: "; "DEBUG LLM response: " +:+ shown; "Bot: You said: " +:+ line].



End Notions.

(* ===================================================================== *)
(** * The world monad                                                     *)
(* ===================================================================== *)

Module MonadFacts.

Lemma bind_inv {A B : Type} (m : M A) (k : A -> M B) w b w' :
  (m ≫= k) w = Ok (b, w') -> exists a w1, m w = Ok (a, w1) /\ k a w1 = Ok (b, w').
Proof.
  unfold mbind, M_bind. destruct (m w) as [[a w1]|e]; [eauto | discriminate].
Qed.

Lemma bind_ok {A B : Type} (m : M A) (k : A -> M B) w a w1 :
  m w = Ok (a, w1) -> (m ≫= k) w = k a w1.
Proof. unfold mbind, M_bind. intros ->. reflexivity. Qed.

Lemma lift_inv {A : Type} (r : res A) w a w' :
  lift r w = Ok (a, w') -> r = Ok a /\ w' = w.
Proof. destruct r; simpl; [intros [= -> ->]; auto | discriminate]. Qed.

Lemma for_each_app {S A : Type} (body : S -> A -> M S) l1 l2 s w :
  for_each body (l1 ++ l2) s w =
  match for_each body l1 s w with
  | Ok (s1, w1) => for_each body l2 s1 w1
  | Raise e => Raise e
  end.
Proof.
  revert s w. induction l1 as [|a l1 IH]; intros s w; [reflexivity|].
  cbn [app for_each]. unfold mbind, M_bind.
  destruct (body s a w) as [[s' w']|e]; [apply IH | reflexivity].
Qed.

Lemma for_each_cons {S A : Type} (body : S -> A -> M S) a l s w :
  for_each body (a :: l) s w =
  match body s a w with
  | Ok (s1, w1) => for_each body l s1 w1
  | Raise e => Raise e
  end.
Proof. reflexivity. Qed.

End MonadFacts.

(* ===================================================================== *)
(** * The pattern of the tools finds the integers of the text             *)
(* ===================================================================== *)

Module ReFacts.
Import PyStr Re Spec.

Section Pattern.
Context `{Externals}.

Lemma is_decimal_word c : is_decimal c = true -> is_word c = true.
Proof. intros Hc. unfold is_word. rewrite (is_decimal_alnum _ Hc). reflexivity. Qed.

Lemma take_word_cons c s :
  take_word (c :: s) =
  if is_word c then (c :: fst (take_word s), snd (take_word s))
  else ([], c :: s).
Proof. simpl. destruct (is_word c), (take_word s); reflexivity. Qed.

(** What follows a taken word does not start with a word character. *)
Lemma take_word_spec s :
  s = fst (take_word s) ++ snd (take_word s)
  /\ forallb is_word (fst (take_word s)) = true
  /\ at_boundary true (snd (take_word s)) = true.
Proof.
  induction s as [|c s IH]; [auto|].
  rewrite take_word_cons. destruct (is_word c) eqn:Hc; cbn [fst snd forallb].
  - destruct IH as (Hs & Hw & Hb). rewrite Hc, Hw, Hb. split; [|auto].
    cbn [app]. rewrite <- Hs. reflexivity.
  - unfold at_boundary. rewrite Hc. auto.
Qed.

Lemma tokens_cons c s :
  tokens (c :: s) =
  if is_word c then
    match s with
    | d :: _ =>
        if is_word d then
          match tokens s with
          | t :: ts => (c :: t) :: ts
          | [] => [[c]]
          end
        else [c] :: tokens s
    | [] => [[c]]
    end
  else tokens s.
Proof. reflexivity. Qed.

Lemma tokens_take_word c s :
  is_word c = true ->
  tokens (c :: s) = fst (take_word (c :: s)) :: tokens (snd (take_word (c :: s))).
Proof.
  revert c. induction s as [|d s IH]; intros c Hc.
  - simpl. rewrite Hc. reflexivity.
  - rewrite tokens_cons, Hc, (take_word_cons c), Hc. cbn [fst snd].
    destruct (is_word d) eqn:Hd.
    + rewrite (IH d Hd). reflexivity.
    + rewrite take_word_cons, Hd. reflexivity.
Qed.

(** A token holds at least one character. *)
Lemma tokens_nonempty s : Forall (fun t => t <> []) (tokens s).
Proof.
  induction s as [|c s IH]; [constructor|].
  rewrite tokens_cons. destruct (is_word c); [|exact IH].
  destruct s as [|d s]; [repeat constructor; done|].
  destruct (is_word d).
  - destruct (tokens (d :: s)) as [|t ts]; [repeat constructor; done|].
    inversion IH; subst. constructor; done.
  - constructor; done.
Qed.

(** An integer of the text is a non-empty run of decimal characters. *)
Lemma integers_decimal s t :
  t ∈ integers s -> t <> [] /\ forallb is_decimal t = true.
Proof.
  unfold integers. intros [Hd Ht]%list_elem_of_filter. split.
  - pose proof (tokens_nonempty s) as Hall. rewrite Forall_forall in Hall. auto.
  - apply Is_true_true. exact Hd.
Qed.

(** The backtracking matcher finds the word at the head when it is made of
    digits, and nothing otherwise. *)
Lemma digits_then_boundary_take_word s :
  digits_then_boundary s =
  match fst (take_word s) with
  | [] => None
  | w => if forallb is_decimal w then Some (w, snd (take_word s)) else None
  end.
Proof.
  induction s as [|c s IH]; [reflexivity|].
  cbn [digits_then_boundary]. rewrite take_word_cons.
  destruct (is_decimal c) eqn:Hd.
  - rewrite (is_decimal_word _ Hd). cbn [fst snd forallb]. rewrite Hd, IH. cbn [andb].
    pose proof (take_word_spec s) as (Hs & _ & Hb).
    destruct (fst (take_word s)) as [|d w] eqn:Hw.
    + change (s = snd (take_word s)) in Hs. rewrite <- Hs in Hb |- *.
      rewrite Hb. reflexivity.
    + destruct (forallb is_decimal (d :: w)) eqn:Hall; [reflexivity|].
      assert (at_boundary true s = false) as ->; [|reflexivity].
      pose proof (take_word_spec s) as (_ & Hword & _).
      rewrite Hw in Hword. rewrite Hs. simpl in *.
      apply andb_true_iff in Hword as [-> _]. reflexivity.
  - destruct (is_word c); cbn [fst snd forallb]; [rewrite Hd|]; reflexivity.
Qed.

Lemma scan_cons skip prev c s :
  scan skip prev (c :: s) =
  match skip with
  | S k => scan k (is_word c) s
  | O =>
      match match_here prev (c :: s) with
      | Some (tok, _) => tok :: scan (length tok - 1) (is_word c) s
      | None => scan 0 (is_word c) s
      end
  end.
Proof. reflexivity. Qed.

(** Inside a word no match starts: scanning a word is the same as stepping
    over it. *)
Lemma scan_inside_word w r :
  forallb is_word w = true -> scan 0 true (w ++ r) = scan 0 true r.
Proof.
  induction w as [|c w IH]; [reflexivity|]. simpl.
  intros [Hc Hw]%andb_true_iff. unfold match_here, at_boundary. rewrite Hc. simpl.
  auto.
Qed.

Lemma scan_skip_word w r :
  forallb is_word w = true -> scan (length w) true (w ++ r) = scan 0 true r.
Proof.
  induction w as [|c w IH]; [reflexivity|]. simpl.
  intros [Hc Hw]%andb_true_iff. rewrite Hc. auto.
Qed.

Lemma integers_cons_word c s :
  is_word c = true ->
  integers (c :: s) =
  let w := fst (take_word (c :: s)) in
  let r := snd (take_word (c :: s)) in
  if forallb is_decimal w then w :: integers r else integers r.
Proof.
  intros Hc. unfold integers. rewrite (tokens_take_word _ _ Hc). cbn zeta.
  rewrite filter_cons.
  destruct (forallb is_decimal _); simpl; reflexivity.
Qed.

Lemma scan_integers s :
  scan 0 false s = integers s /\ scan 0 true s = integers (snd (take_word s)).
Proof.
  induction s as [|c s [IH0 IH1]]; [split; reflexivity|].
  destruct (is_word c) eqn:Hc.
  - assert (scan 0 true (c :: s) = integers (snd (take_word (c :: s)))) as Hin.
    { rewrite scan_cons. unfold match_here, at_boundary. rewrite Hc. cbn [xorb negb].
      rewrite take_word_cons, Hc. exact IH1. }
    split; [|exact Hin].
    rewrite scan_cons, (integers_cons_word _ _ Hc). cbn zeta.
    unfold match_here, at_boundary. rewrite Hc. cbn [xorb].
    rewrite digits_then_boundary_take_word.
    rewrite take_word_cons, Hc. cbn [fst snd].
    destruct (forallb is_decimal _) eqn:Hall.
    + f_equal.
      replace (length (c :: (take_word s).1) - 1)%nat
        with (length (take_word s).1) by (simpl; lia).
      pose proof (take_word_spec s) as (Hs & Hw & _).
      rewrite <- IH1. clear IH0 IH1 Hin Hall. revert Hs Hw.
      generalize (take_word s).1, (take_word s).2. intros w r -> Hw.
      rewrite scan_skip_word, scan_inside_word by done. reflexivity.
    + exact IH1.
  - rewrite !scan_cons. unfold match_here, at_boundary. rewrite Hc. cbn [xorb].
    cbn [digits_then_boundary].
    assert (is_decimal c = false) as ->.
    { destruct (is_decimal c) eqn:Hd; [|done]. apply is_decimal_word in Hd. congruence. }
    rewrite take_word_cons, Hc. cbn [snd].
    unfold integers at 1 2. rewrite tokens_cons, Hc. auto.
Qed.

(** [re.findall] with the pattern of the tools returns the integers of the
    text, in the sense of the specification. *)
Lemma findall_numbers_integers text :
  findall_numbers text = integers (codepoints text).
Proof. apply scan_integers. Qed.

End Pattern.
End ReFacts.

(* ===================================================================== *)
(** * The numbers the arithmetic tools read and write                     *)
(* ===================================================================== *)

Module NumeralFacts.
Import PyStr Re Spec HelloLg2 ReFacts.

Section Numerals.
Context `{Externals}.

Lemma value_snoc acc tok :
  fold_left (fun acc c => 10 * acc + decimal_value c) tok acc
  = acc * 10 ^ Z.of_nat (length tok) + value tok.
Proof.
  unfold value. revert acc. induction tok as [|c tok IH]; intros acc.
  - cbn. lia.
  - cbn [fold_left length]. rewrite IH, (IH (10 * 0 + decimal_value c)).
    rewrite Nat2Z.inj_succ, Z.pow_succ_r by lia. lia.
Qed.

(** A run of [k] decimal characters stands for a number from 0 to
    [10^k - 1]. *)
Lemma value_range tok :
  forallb is_decimal tok = true -> 0 <= value tok < 10 ^ Z.of_nat (length tok).
Proof.
  induction tok as [|c tok IH]; [cbn; lia|].
  cbn [forallb length]. intros [Hc Htok]%andb_true_iff.
  unfold value. cbn [fold_left]. rewrite value_snoc.
  pose proof (decimal_value_range c Hc). specialize (IH Htok).
  rewrite Nat2Z.inj_succ, Z.pow_succ_r by lia. nia.
Qed.

Lemma too_big_false n :
  too_big n = false <-> max_str_digits = 0%nat \/ Z.abs n < 10 ^ Z.of_nat max_str_digits.
Proof.
  unfold too_big. rewrite andb_false_iff, Nat.ltb_ge, Z.leb_gt. lia.
Qed.

Lemma too_long_false k :
  too_long k = false <-> max_str_digits = 0%nat \/ (k <= max_str_digits)%nat.
Proof.
  unfold too_long. rewrite andb_false_iff, !Nat.ltb_ge. lia.
Qed.

(** A numeral within the limit stands for a number within the limit. *)
Lemma value_fits tok :
  forallb is_decimal tok = true -> too_long (length tok) = false ->
  too_big (value tok) = false.
Proof.
  intros Hdec [Hnone|Hlen]%too_long_false; apply too_big_false; [auto|right].
  pose proof (value_range tok Hdec) as Hv.
  assert (10 ^ Z.of_nat (length tok) <= 10 ^ Z.of_nat max_str_digits)
    by (apply Z.pow_le_mono_r; lia).
  lia.
Qed.

Lemma difference_fits a b :
  0 <= a -> 0 <= b -> too_big a = false -> too_big b = false -> too_big (a - b) = false.
Proof. rewrite !too_big_false. lia. Qed.

(** [int] on an integer of the text: the limit of digits is all that can
    make it raise. *)
Lemma int_decimal tok :
  tok <> [] -> forallb is_decimal tok = true ->
  int tok = if too_long (length tok) then Raise ValueError else Ok (value tok).
Proof.
  intros Hne Hdec. unfold int. rewrite Hdec. destruct tok; [done | reflexivity].
Qed.

(** What a tool does with the first two integers [n1] and [n2] of the text
    and the number [c] it computes from them. *)
Lemma tool_body (n1 n2 : list N) (c : Z -> Z -> Z) (sentence : string -> string -> string -> string)
    (swap : bool) :
  n1 <> [] -> forallb is_decimal n1 = true ->
  n2 <> [] -> forallb is_decimal n2 = true ->
  (a ← int n1;
   b ← int n2;
   s1 ← format_int (if swap then b else a);
   s2 ← format_int (if swap then a else b);
   sc ← format_int (c a b);
   mret (sentence s1 s2 sc))
  = if negb (too_long (length n1)) && negb (too_long (length n2))
       && negb (too_big (c (value n1) (value n2)))
    then Ok (sentence (str (if swap then value n2 else value n1))
               (str (if swap then value n1 else value n2))
               (str (c (value n1) (value n2))))
    else Raise ValueError.
Proof.
  intros Hne1 Hdec1 Hne2 Hdec2. rewrite !int_decimal by done.
  destruct (too_long (length n1)) eqn:H1; [reflexivity|].
  destruct (too_long (length n2)) eqn:H2; [reflexivity|].
  cbn [mbind res_bind negb andb]. unfold format_int.
  destruct swap; rewrite (value_fits n1), (value_fits n2) by done;
    cbn [mbind res_bind]; destruct (too_big (c _ _)); reflexivity.
Qed.

(** The tools on a text whose first two integers are [n1] and [n2]. *)
Lemma tools_on_the_first_two_integers
    (text : string) (n1 n2 : list N) (later : list (list N)) :
  integers (codepoints text) = n1 :: n2 :: later ->
  let a := value n1 in
  let b := value n2 in
  let numerals_fit := negb (too_long (length n1)) && negb (too_long (length n2)) in
  add_two_numbers text =
    (if numerals_fit && negb (too_big (a + b)) then
       Ok ("The sum of " +:+ str a +:+ " and " +:+ str b +:+ " is " +:+ str (a + b) +:+ ".")
     else Raise ValueError)
  /\ subtract_two_numbers text =
    (if numerals_fit then
       Ok ("The difference when subtracting " +:+ str b +:+ " from " +:+ str a
             +:+ " is " +:+ str (a - b) +:+ ".")
     else Raise ValueError)
  /\ multiply_two_numbers text =
    (if numerals_fit && negb (too_big (a * b)) then
       Ok ("The product of " +:+ str a +:+ " and " +:+ str b +:+ " is " +:+ str (a * b) +:+ ".")
     else Raise ValueError).
Proof.
  intros Hints a b numerals_fit.
  destruct (integers_decimal (codepoints text) n1) as [Hne1 Hdec1];
    [rewrite Hints; set_solver|].
  destruct (integers_decimal (codepoints text) n2) as [Hne2 Hdec2];
    [rewrite Hints; set_solver|].
  unfold add_two_numbers, subtract_two_numbers, multiply_two_numbers.
  rewrite findall_numbers_integers, Hints.
  split; [|split].
  - exact (tool_body n1 n2 Z.add
             (fun sa sb sc => "The sum of " +:+ sa +:+ " and " +:+ sb +:+ " is " +:+ sc +:+ ".")
             false Hne1 Hdec1 Hne2 Hdec2).
  - rewrite (tool_body n1 n2 Z.sub
               (fun sb sa sc => "The difference when subtracting " +:+ sb +:+ " from " +:+ sa
                                  +:+ " is " +:+ sc +:+ ".")
               true Hne1 Hdec1 Hne2 Hdec2).
    fold a b numerals_fit. destruct numerals_fit eqn:Hfit; [|reflexivity].
    apply andb_true_iff in Hfit as [H1%negb_true_iff H2%negb_true_iff].
    rewrite difference_fits;
      [reflexivity | apply value_range; done | apply value_range; done
      | apply value_fits; done | apply value_fits; done].
  - exact (tool_body n1 n2 Z.mul
             (fun sa sb sc => "The product of " +:+ sa +:+ " and " +:+ sb +:+ " is " +:+ sc +:+ ".")
             false Hne1 Hdec1 Hne2 Hdec2).
Qed.

End Numerals.
End NumeralFacts.

(* ===================================================================== *)
(** * The arithmetic handlers                                             *)
(* ===================================================================== *)

Module ArithmeticFacts.
Import PyStr Re Spec Sample HelloLg2 ReFacts NumeralFacts.

Section Handlers.
Context `{Externals}.

(** C3, as amended. When the text holds at least two integers, each of
    the three tools reads the first two of them, left to right, and what
    follows them in the text, [later], has no part in what it does: it
    answers with the numbers [a] and [b] the two stand for and with their
    sum, difference or product, unless one of the two numerals, or the sum
    or the product, has more digits than the interpreter's limit, in which
    case it raises [ValueError]. *)
Theorem handlers_use_first_two_integers
    (text : string) (n1 n2 : list N) (later : list (list N)) :
  integers (codepoints text) = n1 :: n2 :: later ->
  let a := value n1 in
  let b := value n2 in
  let numerals_fit := negb (too_long (length n1)) && negb (too_long (length n2)) in
  add_two_numbers text =
    (if numerals_fit && negb (too_big (a + b)) then
       Ok ("The sum of " +:+ str a +:+ " and " +:+ str b +:+ " is " +:+ str (a + b) +:+ ".")
     else Raise ValueError)
  /\ subtract_two_numbers text =
    (if numerals_fit then
       Ok ("The difference when subtracting " +:+ str b +:+ " from " +:+ str a
             +:+ " is " +:+ str (a - b) +:+ ".")
     else Raise ValueError)
  /\ multiply_two_numbers text =
    (if numerals_fit && negb (too_big (a * b)) then
       Ok ("The product of " +:+ str a +:+ " and " +:+ str b +:+ " is " +:+ str (a * b) +:+ ".")
     else Raise ValueError).
Proof. apply tools_on_the_first_two_integers. Qed.

(** C4. When the text holds fewer than two integers, each tool returns
    its fixed sentence and raises nothing. *)
Theorem handlers_fall_back_without_two_integers (text : string) :
  (length (integers (codepoints text)) < 2)%nat ->
  add_two_numbers text = Ok "I couldn't find two numbers to add."
  /\ subtract_two_numbers text = Ok "I couldn't find two numbers to subtract."
  /\ multiply_two_numbers text = Ok "I couldn't find two numbers to multiply.".
Proof.
  intros Hfew.
  unfold add_two_numbers, subtract_two_numbers, multiply_two_numbers.
  rewrite findall_numbers_integers.
  destruct (integers (codepoints text)) as [|n1 [|n2 later]]; simpl in Hfew; [auto | auto | lia].
Qed.

End Handlers.

(** The example of the specification: the sum tool names 3, 5 and 8 and
    does not mention the 10. *)
Lemma handlers_use_first_two_integers_example :
  @integers quiet_world (@codepoints quiet_world example_text)
    = [@codepoints quiet_world "3"; @codepoints quiet_world "5"; @codepoints quiet_world "10"]
  /\ @add_two_numbers quiet_world example_text = Ok "The sum of 3 and 5 is 8."
  /\ contains "10" "The sum of 3 and 5 is 8." = false.
Proof.
  split; [reflexivity|].
  destruct (@handlers_use_first_two_integers quiet_world example_text
              (@codepoints quiet_world "3") (@codepoints quiet_world "5")
              [@codepoints quiet_world "10"] eq_refl)
    as (Hadd & _ & _).
  split; [|reflexivity].
  rewrite Hadd. vm_compute. reflexivity.
Defined.

(** C3, as stated, fails: a text with two integers, the first of one digit
    more than the interpreter's limit of 4300, makes each tool raise. *)
Lemma numeral_beyond_the_limit_raises :
  length (@integers quiet_world (@codepoints quiet_world long_text)) = 2%nat
  /\ @add_two_numbers quiet_world long_text = Raise ValueError
  /\ @subtract_two_numbers quiet_world long_text = Raise ValueError
  /\ @multiply_two_numbers quiet_world long_text = Raise ValueError.
Proof. repeat split; vm_compute; reflexivity. Qed.

(** A text with one integer. *)
Lemma handlers_fall_back_without_two_integers_example :
  (length (@integers quiet_world (@codepoints quiet_world "double 21 please")) < 2)%nat
  /\ @add_two_numbers quiet_world "double 21 please"
     = Ok "I couldn't find two numbers to add."
  /\ @subtract_two_numbers quiet_world "double 21 please"
     = Ok "I couldn't find two numbers to subtract."
  /\ @multiply_two_numbers quiet_world "double 21 please"
     = Ok "I couldn't find two numbers to multiply.".
Proof.
  assert (length (@integers quiet_world (@codepoints quiet_world "double 21 please")) < 2)%nat
    as Hfew by (vm_compute; lia).
  split; [exact Hfew|].
  exact (@handlers_fall_back_without_two_integers quiet_world "double 21 please" Hfew).
Defined.

End ArithmeticFacts.

(* ===================================================================== *)
(** * Numerals in ASCII                                                   *)
(* ===================================================================== *)

Module DecimalFacts.
Import PyStr Re Spec HelloLg2 ReFacts NumeralFacts.

Lemma is_ascii_uint d : is_ascii (NilEmpty.string_of_uint d) = true.
Proof. induction d; cbn [NilEmpty.string_of_uint is_ascii]; [reflexivity | exact IHd ..]. Qed.

(** The numeral of a number that is not negative. *)
Lemma str_nonnegative n :
  0 <= n ->
  str n = "0" /\ n = 0
  \/ exists p, n = Z.pos p /\ str n = NilEmpty.string_of_uint (Pos.to_uint p).
Proof.
  intros Hn. destruct n as [|p|p]; [auto | right | lia].
  exists p. split; [reflexivity|]. unfold str. cbn [Z.to_int NilZero.string_of_int].
  unfold NilZero.string_of_uint.
  pose proof (DecimalPos.Unsigned.to_uint_nonnil p) as Hnil.
  destruct (Pos.to_uint p); done.
Qed.

Lemma is_ascii_str n : 0 <= n -> is_ascii (str n) = true.
Proof.
  intros [[-> _]|(p & _ & ->)]%str_nonnegative; [reflexivity | apply is_ascii_uint].
Qed.

Lemma length_list_ascii s : length (String.list_ascii_of_string s) = String.length s.
Proof. induction s as [|c s IH]; [reflexivity|]. cbn. rewrite IH. reflexivity. Qed.

Section Decimal.
Context `{Externals}.

(** The characters of an ASCII text are its bytes. *)
Lemma length_codepoints s : is_ascii s = true -> length (codepoints s) = String.length s.
Proof.
  intros Hascii. rewrite codepoints_ascii by done. rewrite length_map.
  apply length_list_ascii.
Qed.

(** The number the digits of a numeral stand for, read after the digits
    of [acc]. *)
Lemma uint_value_pos d : forall acc : positive,
  fold_left (fun acc c => 10 * acc + decimal_value c)
    (map N_of_ascii (String.list_ascii_of_string (NilEmpty.string_of_uint d))) (Z.pos acc)
  = Z.pos (Pos.of_uint_acc d acc).
Proof.
  induction d; intros acc;
    cbn [NilEmpty.string_of_uint String.list_ascii_of_string map fold_left Pos.of_uint_acc];
    [reflexivity | rewrite <- IHd; f_equal ..];
    match goal with
    | |- context [decimal_value (N_of_ascii ?c)] =>
        let v := eval vm_compute in (N_of_ascii c) in
        change (N_of_ascii c) with v; rewrite (decimal_value_ascii v) by lia
    end; lia.
Qed.

Lemma uint_value d :
  value (map N_of_ascii (String.list_ascii_of_string (NilEmpty.string_of_uint d)))
  = Z.of_N (Pos.of_uint d).
Proof.
  unfold value.
  induction d;
    cbn [NilEmpty.string_of_uint String.list_ascii_of_string map fold_left Pos.of_uint];
    [reflexivity | ..];
    match goal with
    | |- context [decimal_value (N_of_ascii ?c)] =>
        let v := eval vm_compute in (N_of_ascii c) in
        change (N_of_ascii c) with v; rewrite (decimal_value_ascii v) by lia
    end;
    [exact IHd | exact (uint_value_pos _ _) ..].
Qed.

(** [int(str(n)) == n] for an [n] that is not negative, as far as the
    value goes. *)
Lemma value_str n : 0 <= n -> value (codepoints (str n)) = n.
Proof.
  intros Hn. rewrite codepoints_ascii by (apply is_ascii_str; done).
  destruct (str_nonnegative n Hn) as [[-> ->]|(p & -> & ->)].
  - unfold value. cbn [String.list_ascii_of_string map fold_left].
    change (N_of_ascii "0") with 48%N. rewrite (decimal_value_ascii 48) by lia. lia.
  - rewrite uint_value, DecimalPos.Unsigned.of_to. reflexivity.
Qed.

(** X1. When the first two integers of the text are the decimal numerals
    of the numbers [a] and [b], neither negative nor longer than the limit
    of digits, the tools answer with the numerals of [a], [b] and of their
    exact sum, difference (negative when [a < b]) and product; the sum and
    the product raise [ValueError] when they have more digits than the
    limit, the difference never does. *)
Theorem tools_compute_on_the_numbers_written
    (text : string) (a b : Z) (later : list (list N)) :
  0 <= a -> 0 <= b ->
  too_long (String.length (str a)) = false ->
  too_long (String.length (str b)) = false ->
  integers (codepoints text) = codepoints (str a) :: codepoints (str b) :: later ->
  add_two_numbers text =
    (if too_big (a + b) then Raise ValueError
     else Ok ("The sum of " +:+ str a +:+ " and " +:+ str b +:+ " is "
                +:+ str (a + b) +:+ "."))
  /\ subtract_two_numbers text =
    Ok ("The difference when subtracting " +:+ str b +:+ " from " +:+ str a
          +:+ " is " +:+ str (a - b) +:+ ".")
  /\ multiply_two_numbers text =
    (if too_big (a * b) then Raise ValueError
     else Ok ("The product of " +:+ str a +:+ " and " +:+ str b +:+ " is "
                +:+ str (a * b) +:+ ".")).
Proof.
  intros Ha Hb Hla Hlb Hints.
  destruct (tools_on_the_first_two_integers text _ _ later Hints) as (Hadd & Hsub & Hmul).
  cbn zeta in Hadd, Hsub, Hmul.
  rewrite !length_codepoints, !value_str, Hla, Hlb in Hadd, Hsub, Hmul
    by (done || apply is_ascii_str; done).
  cbn [negb andb] in Hadd, Hsub, Hmul. rewrite Hadd, Hsub, Hmul. clear Hadd Hsub Hmul.
  split; [|split; [reflexivity|]].
  - destruct (too_big (a + b)); reflexivity.
  - destruct (too_big (a * b)); reflexivity.
Qed.

End Decimal.
End DecimalFacts.

(* ===================================================================== *)
(** * The router of the arithmetic assistant                              *)
(* ===================================================================== *)

Module RouterFacts.
Import PyStr Spec HelloLg2 MonadFacts.

(** Two prefixes that differ in their first character exclude each other. *)
Lemma startswith_first_char s a p b p' :
  a <> b -> startswith s (String a p) = true -> startswith s (String b p') = false.
Proof.
  intros Hab. unfold startswith. destruct s as [|c s]; simpl; [done|].
  destruct (ascii_dec a c) as [<-|]; [|done].
  destruct (ascii_dec b a) as [->|]; done.
Qed.

Section Router.
Context `{Externals}.

Lemma int_raises tok e : int tok = Raise e -> e = ValueError.
Proof. unfold int. repeat case_match; congruence. Qed.

Lemma format_int_raises n e : format_int n = Raise e -> e = ValueError.
Proof. unfold format_int. case_match; congruence. Qed.

Ltac tool_raises :=
  intros Hrun;
  repeat match type of Hrun with
         | mret _ = Raise _ => discriminate Hrun
         | (match ?l with _ => _ end) = Raise _ => destruct l
         | (?m ≫= _) = Raise _ =>
             let Hm := fresh in
             destruct m eqn:Hm;
             [ cbn [mbind res_bind] in Hrun
             | injection Hrun as <-;
               first [ apply int_raises in Hm | apply format_int_raises in Hm ]; exact Hm ]
         end.

(** The limit of digits is all that can make a tool raise. *)
Lemma add_two_numbers_raises text e : add_two_numbers text = Raise e -> e = ValueError.
Proof. unfold add_two_numbers. tool_raises. Qed.

Lemma subtract_two_numbers_raises text e :
  subtract_two_numbers text = Raise e -> e = ValueError.
Proof. unfold subtract_two_numbers. tool_raises. Qed.

Lemma multiply_two_numbers_raises text e :
  multiply_two_numbers text = Raise e -> e = ValueError.
Proof. unfold multiply_two_numbers. tool_raises. Qed.

Lemma tool_node_raises (tool : string -> res string) (st : State) w e :
  (forall text e, tool text = Raise e -> e = ValueError) ->
  (result ← lift (tool (default "" (user_input st))); mret (set_result result)) w = Raise e ->
  e = ValueError.
Proof.
  intros Htool. unfold mbind, M_bind, lift.
  destruct (tool _) eqn:Hrun; [discriminate|]. intros [= <-]. eauto.
Qed.

Lemma handler_for_raises label st w e :
  handler_for label st w = Raise e -> e = ValueError.
Proof.
  unfold handler_for. repeat case_match.
  - apply tool_node_raises, add_two_numbers_raises.
  - apply tool_node_raises, subtract_two_numbers_raises.
  - apply tool_node_raises, multiply_two_numbers_raises.
  - discriminate.
Qed.

Lemma nodes_decide st :
  nodes !! decide st = Some (handler_for (default "" (llm_response st))).
Proof. unfold decide, handler_for. repeat case_match; reflexivity. Qed.

Lemma run_interpret st w :
  let label := upper (strip (co_chat (chats w) (prompt (default "" (user_input st))))) in
  run_node "interpret" st w =
  Ok (merge st (set_llm_response label),
      after_interpret ("DEBUG LLM response: " +:+ label) w).
Proof. reflexivity. Qed.

(** One invocation of the graph: the label is the reply of the chat model,
    stripped and in upper case, and the node run is the handler for it. *)
Lemma arithmetic_invoke_unfold st w :
  let label := upper (strip (co_chat (chats w) (prompt (default "" (user_input st))))) in
  let s1 := merge st (set_llm_response label) in
  graph_invoke st w =
    match handler_for label s1 (after_interpret ("DEBUG LLM response: " +:+ label) w) with
    | Ok (update, w') => Ok (merge s1 update, w')
    | Raise e => Raise e
    end.
Proof.
  intros label s1. unfold graph_invoke. unfold mbind at 1, M_bind.
  rewrite run_interpret. fold label s1.
  unfold run_node. rewrite nodes_decide.
  change (default "" (llm_response s1)) with label.
  reflexivity.
Qed.

(** C6. [decide] is total: for every state it names a registered node,
    which is the add, subtract or multiply tool exactly when the label
    starts with ADD, SUBTRACT or MULTIPLY, and [echo] in every other case.
    Whatever the chat model answers, the label [interpret] stores is its
    stripped, upper-cased text and the graph runs the node for that label;
    the route never fails, and the only exception an invocation can end in
    is the [ValueError] of a tool beyond the limit of digits. *)
Theorem decide_routes_every_label (st : State) :
  let resp := default "" (llm_response st) in
  nodes !! decide st = Some (handler_for resp)
  /\ (decide st = "add_tool" <-> startswith resp "ADD" = true)
  /\ (decide st = "subtract_tool" <-> startswith resp "SUBTRACT" = true)
  /\ (decide st = "multiply_tool" <-> startswith resp "MULTIPLY" = true)
  /\ (decide st = "echo" <->
      startswith resp "ADD" = false /\ startswith resp "SUBTRACT" = false
      /\ startswith resp "MULTIPLY" = false)
  /\ (forall w,
        let label := upper (strip (co_chat (chats w) (prompt (default "" (user_input st))))) in
        let s1 := merge st (set_llm_response label) in
        graph_invoke st w =
          match handler_for label s1 (after_interpret ("DEBUG LLM response: " +:+ label) w) with
          | Ok (update, w') => Ok (merge s1 update, w')
          | Raise e => Raise e
          end)
  /\ (forall w e, graph_invoke st w = Raise e -> e = ValueError).
Proof.
  intros resp.
  split; [apply nodes_decide|].
  assert (forall w e, graph_invoke st w = Raise e -> e = ValueError) as Hraise.
  { intros w e. rewrite arithmetic_invoke_unfold. cbn zeta.
    destruct (handler_for _ _ _) as [[update w']|e'] eqn:Hrun; [discriminate|].
    intros [= <-]. eapply handler_for_raises, Hrun. }
  unfold decide. fold resp.
  destruct (startswith resp "ADD") eqn:Ha.
  { rewrite (startswith_first_char resp "A" "DD" "S" "UBTRACT") by done.
    rewrite (startswith_first_char resp "A" "DD" "M" "ULTIPLY") by done.
    repeat split; intros; try done; try apply arithmetic_invoke_unfold; eauto;
      intuition discriminate. }
  destruct (startswith resp "SUBTRACT") eqn:Hs.
  { rewrite (startswith_first_char resp "S" "UBTRACT" "M" "ULTIPLY") by done.
    repeat split; intros; try done; try apply arithmetic_invoke_unfold; eauto;
      intuition discriminate. }
  destruct (startswith resp "MULTIPLY") eqn:Hm;
    repeat split; intros; try done; try apply arithmetic_invoke_unfold; eauto;
      intuition discriminate.
Qed.

End Router.
End RouterFacts.

(* ===================================================================== *)
(** * The dispatcher of the product-model assistant                       *)
(* ===================================================================== *)

Module DispatcherFacts.
Import PyStr Spec Sample SiebelPmAssist MonadFacts.

(** Unfolding of the world monad. *)
Ltac run := unfold mbind, mret, M_bind, M_ret, lift; cbn beta iota.

Lemma py_get_inv a key dflt v :
  py_get a key dflt = Ok v ->
  exists fields, a = JObj fields /\ v = default dflt (dict_get key fields).
Proof. destruct a; simpl; try discriminate. intros [= <-]. eauto. Qed.

Lemma arg_str_inv v s : arg_str v = Ok s -> v = JStr s.
Proof. destruct v; simpl; try discriminate. intros [= <-]. done. Qed.

Section Dispatcher.
Context `{Externals}.

Lemma py_upper_inv v u : py_upper v = Ok u -> exists t, v = JStr t /\ u = upper t.
Proof. destruct v; simpl; try discriminate. intros [= <-]. eauto. Qed.

(** The type names of the prompt are in upper case already. *)
Lemma upper_literal t : is_ascii t = true -> ascii_upper t = t -> upper t = t.
Proof. intros Hascii Hupper. rewrite upper_ascii by done. exact Hupper. Qed.

(** One pass of the loop for an action record whose type is the string
    [t]. *)
Lemma dispatch_action_typed s fields t w :
  field fields "type" = JStr t ->
  dispatch_action s (JObj fields) w =
  (let action_type := upper t in
   name ← lift (Ok (field fields "name"));
   if String.eqb action_type "CREATEPRICELIST" then
     product ← lift (Ok (field fields "product"));
     price ← lift (Ok (field fields "price"));
     currency ← lift (Ok (field fields "currency"));
     name ← lift (arg_str name);
     product ← lift (arg_str product);
     price ← lift (arg_str price);
     currency ← lift (arg_str currency);
     table ← lift (arg_dict (ids s));
     let result := create_pricelist name product price currency (Some table) in
     mret (mkLoop (ids s) (results s ++ [result]))
   else
     match tool_map !! action_type with
     | Some tool_fn =>
         name ← lift (arg_str name);
         result ← tool_fn name;
         ids' ← lift (match result with
                      | OutDict fields =>
                          if String.eqb action_type "CREATEPRODUCT"
                          then set_item (ids s) name
                                 (default (JStr "") (dict_get "ProductId" fields))
                          else Ok (ids s)
                      | OutStr _ => Ok (ids s)
                      end);
         mret (mkLoop ids' (results s ++ [result_text result]))
     | None =>
         mret (mkLoop (ids s) (results s ++ ["Unknown action: " +:+ action_type]))
     end) w.
Proof.
  intros Hty. unfold dispatch_action, py_get.
  change (default (JStr "") (dict_get "type" fields)) with (field fields "type").
  rewrite Hty. reflexivity.
Qed.

Lemma tool_map_cases t f :
  tool_map !! t = Some f ->
  (t = "CREATEPRODUCT" /\ f = create_product)
  \/ (t <> "CREATEPRODUCT" /\ exists g : string -> string, f = fun name => mret (OutStr (g name))).
Proof.
  unfold tool_map.
  repeat (rewrite lookup_insert; case_decide;
          [ subst t; intros [= <-]; (left; split; reflexivity) || (right; split; [done | eauto])
          | ]).
  rewrite lookup_empty. discriminate.
Qed.

(** The price list resolves the product through the table, whatever the
    table holds. *)
Lemma create_pricelist_complete name product price currency table :
  name <> "" -> product <> "" -> price <> "" -> currency <> "" ->
  create_pricelist name product price currency (Some table) =
  "Sample REST request for Siebel price list item:
" +:+ json_dumps
        (pricelist_payload name (default (JStr product) (table !! product)) price currency).
Proof.
  intros Hn Hp Hpr Hc.
  destruct name; [done|]. destruct product as [|c product]; [done|].
  destruct price; [done|]. destruct currency; [done|].
  unfold create_pricelist. cbn [missing_fields is_empty String.eqb].
  case_decide as Hempty; [|reflexivity].
  rewrite Hempty, lookup_empty. reflexivity.
Qed.

Lemma dispatch_create_product n T rs w :
  n <> "" ->
  dispatch_action (mkLoop (IdsDict T) rs) (action "CREATEPRODUCT" n) w =
  Ok (mkLoop (IdsDict (<[n := JStr (uuid4 (uuids w))]> T))
        (rs ++ [json_dumps (product_result (uuid4 (uuids w)) n)]),
      after_create_product (json_dumps (product_payload (uuid4 (uuids w)) n)) w).
Proof.
  intros Hn. destruct n as [|c n]; [done|]. unfold action.
  rewrite (dispatch_action_typed _ _ "CREATEPRODUCT") by reflexivity.
  rewrite (upper_literal "CREATEPRODUCT") by reflexivity. reflexivity.
Qed.

Lemma dispatch_create_product_unnamed s w :
  dispatch_action s (action "CREATEPRODUCT" "") w =
  Ok (mkLoop (ids s) (results s ++ ["MISSING_FIELDS:Product Name"]), w).
Proof.
  unfold action.
  rewrite (dispatch_action_typed _ _ "CREATEPRODUCT") by reflexivity.
  rewrite (upper_literal "CREATEPRODUCT") by reflexivity. reflexivity.
Qed.

Lemma dispatch_pricelist name product price currency T rs w :
  dispatch_action (mkLoop (IdsDict T) rs) (pricelist_action name product price currency) w =
  Ok (mkLoop (IdsDict T) (rs ++ [create_pricelist name product price currency (Some T)]), w).
Proof.
  unfold pricelist_action.
  rewrite (dispatch_action_typed _ _ "CREATEPRICELIST") by reflexivity.
  rewrite (upper_literal "CREATEPRICELIST") by reflexivity. reflexivity.
Qed.

Lemma dispatch_unknown s fields t w :
  field fields "type" = JStr t ->
  upper t <> "CREATEPRICELIST" ->
  tool_map !! upper t = None ->
  dispatch_action s (JObj fields) w =
  Ok (mkLoop (ids s) (results s ++ ["Unknown action: " +:+ upper t]), w).
Proof.
  intros Hty Hpl Hnone. unfold dispatch_action, py_get.
  change (default (JStr "") (dict_get "type" fields)) with (field fields "type").
  rewrite Hty. run. cbn [py_upper].
  destruct (String.eqb_spec (upper t) "CREATEPRICELIST") as [|_]; [done|].
  rewrite Hnone. reflexivity.
Qed.

(** An action record whose type is not a string ends the loop. *)
Lemma dispatch_untyped s fields w :
  is_str (field fields "type") = false ->
  dispatch_action s (JObj fields) w = Raise AttributeError.
Proof.
  intros Hty. unfold dispatch_action, py_get.
  change (default (JStr "") (dict_get "type" fields)) with (field fields "type").
  destruct (field fields "type"); try discriminate; reflexivity.
Qed.

(** What one pass of the loop can do to the table and to the world: mint
    an identifier for the name of a product-creation action, or leave
    both as they are. *)
Lemma dispatch_action_cases s a w s' w' :
  dispatch_action s a w = Ok (s', w') ->
  (exists r, results s' = results s ++ [r])
  /\ ((exists n T,
        n <> "" /\ creates_product n a = true /\ ids s = IdsDict T
        /\ ids s' = IdsDict (<[n := JStr (uuid4 (uuids w))]> T)
        /\ uuids w' = S (uuids w))
      \/ (ids s' = ids s /\ uuids w' = uuids w)).
Proof.
  unfold dispatch_action. intros Hrun.
  apply bind_inv in Hrun as (ty & w1 & [Hty ->]%lift_inv & Hrun).
  apply bind_inv in Hrun as (action_type & w1 & [Hup ->]%lift_inv & Hrun).
  apply bind_inv in Hrun as (name & w1 & [Hname ->]%lift_inv & Hrun).
  apply py_get_inv in Hty as (fields & -> & ->).
  apply py_upper_inv in Hup as (t & Hty & ->).
  apply py_get_inv in Hname as (? & [= <-] & ->).
  destruct (String.eqb_spec (upper t) "CREATEPRICELIST") as [Hpl|Hpl].
  - apply bind_inv in Hrun as (product & w1 & [_ ->]%lift_inv & Hrun).
    apply bind_inv in Hrun as (price & w1 & [_ ->]%lift_inv & Hrun).
    apply bind_inv in Hrun as (currency & w1 & [_ ->]%lift_inv & Hrun).
    apply bind_inv in Hrun as (name' & w1 & [_ ->]%lift_inv & Hrun).
    apply bind_inv in Hrun as (product' & w1 & [_ ->]%lift_inv & Hrun).
    apply bind_inv in Hrun as (price' & w1 & [_ ->]%lift_inv & Hrun).
    apply bind_inv in Hrun as (currency' & w1 & [_ ->]%lift_inv & Hrun).
    apply bind_inv in Hrun as (table & w1 & [_ ->]%lift_inv & Hrun).
    injection Hrun as <- <-. split; [eauto | right; auto].
  - destruct (tool_map !! upper t) as [tool_fn|] eqn:Htool.
    + apply bind_inv in Hrun as (name' & w1 & [Hname ->]%lift_inv & Hrun).
      apply arg_str_inv in Hname.
      apply bind_inv in Hrun as (result & w1 & Htoolrun & Hrun).
      apply bind_inv in Hrun as (ids' & w2 & [Hids ->]%lift_inv & Hrun).
      injection Hrun as <- <-. split; [cbn; eauto|].
      apply tool_map_cases in Htool as [[Hcp ->]|[Hne [g ->]]].
      * unfold create_product in Htoolrun.
        destruct (is_empty name') eqn:Hempty.
        { injection Htoolrun as <- <-. injection Hids as <-. right. auto. }
        cbv in Htoolrun. injection Htoolrun as <- <-.
        rewrite Hcp in Hids. cbn in Hids. unfold set_item in Hids.
        destruct (ids s) as [T|]; [|discriminate]. injection Hids as <-.
        left. exists name', T. repeat split; try done.
        { intros ->. discriminate. }
        unfold creates_product, field. rewrite Hty, Hname, Hcp, !String.eqb_refl.
        reflexivity.
      * injection Htoolrun as <- <-. injection Hids as <-. right. auto.
    + injection Hrun as <- <-. split; [cbn; eauto | right; auto].
Qed.

(** The table over a whole batch: names stay, identifiers do not change
    under names the batch does not create, and what is new was minted for
    a non-empty name during the batch. *)
Lemma for_each_table actions : forall s w s' w' T,
  for_each dispatch_action actions s w = Ok (s', w') ->
  ids s = IdsDict T ->
  exists T',
    ids s' = IdsDict T'
    /\ (uuids w <= uuids w')%nat
    /\ (forall name, is_Some (T !! name) -> is_Some (T' !! name))
    /\ (forall name, forallb (fun a => negb (creates_product name a)) actions = true ->
                     T' !! name = T !! name)
    /\ (forall name v, T' !! name = Some v ->
          T !! name = Some v
          \/ (name <> "" /\ exists k, (uuids w <= k < uuids w')%nat /\ v = JStr (uuid4 k))).
Proof.
  induction actions as [|a actions IH]; intros s w s' w' T Hrun Hids.
  - injection Hrun as <- <-. exists T. repeat split; auto.
  - rewrite for_each_cons in Hrun.
    destruct (dispatch_action s a w) as [[s1 w1]|e] eqn:Hstep; [|discriminate].
    apply dispatch_action_cases in Hstep as [_ Hstep].
    destruct Hstep as [(n & T0 & Hn & Hcreates & HT0 & Hids1 & Hw1)|[Hids1 Hw1]].
    + assert (T0 = T) as -> by congruence.
      destruct (IH _ _ _ _ _ Hrun Hids1) as (T' & HT' & Hle & Hdom & Hkeep & Hnew).
      exists T'. split; [done|]. split; [lia|]. split; [|split].
      * intros name Hin. apply Hdom. rewrite lookup_insert. case_decide; [eauto | done].
      * intros name [Ha Hrest]%andb_true_iff. rewrite Hkeep by done.
        apply lookup_insert_ne. intros ->. rewrite Hcreates in Ha. discriminate.
      * intros name v Hv. destruct (Hnew _ _ Hv) as [Hold|(Hne & k & Hk & ->)].
        -- rewrite lookup_insert in Hold. case_decide as Hname; [|auto].
           injection Hold as <-. subst name. right. split; [done|].
           exists (uuids w). split; [lia | done].
        -- right. split; [done|]. exists k. split; [lia | done].
    + rewrite Hids in Hids1.
      destruct (IH _ _ _ _ _ Hrun Hids1) as (T' & HT' & Hle & Hdom & Hkeep & Hnew).
      exists T'. split; [done|]. split; [lia|]. split; [done|]. split.
      * intros name [_ Hrest]%andb_true_iff. auto.
      * intros name v Hv. destruct (Hnew _ _ Hv) as [|(Hne & k & Hk & ->)]; [auto|].
        right. split; [done|]. exists k. split; [lia | done].
Qed.

Lemma run_actions_batch st items w :
  llm_response st = Some (batch items) ->
  run_actions st w =
  for_each dispatch_action items (mkLoop (default (IdsDict ∅) (product_ids st)) []) w.
Proof. intros Hresp. unfold run_actions. rewrite Hresp. reflexivity. Qed.

(** C1. In a batch that creates the product [n] and later, after actions
    [mid] that create no product of that name, asks for a price list of
    [n]: the creation stores [n] with the identifier it minted before the
    next action runs, and the price list's payload carries that identifier
    as its ProductId.  In general the payload carries the table's entry
    for the product, and the given name only when the table has none. *)
Theorem later_pricelist_resolves_minted_id
    (n pl_name price currency : string) (mid : list json)
    (T : gmap string json) (rs : list string) (w : World) (s2 : Loop) (w2 : World) :
  n <> "" -> pl_name <> "" -> price <> "" -> currency <> "" ->
  forallb (fun a => negb (creates_product n a)) mid = true ->
  let id := uuid4 (uuids w) in
  let s1 := mkLoop (IdsDict (<[n := JStr id]> T)) (rs ++ [json_dumps (product_result id n)]) in
  let w1 := after_create_product (json_dumps (product_payload id n)) w in
  for_each dispatch_action mid s1 w1 = Ok (s2, w2) ->
  dispatch_action (mkLoop (IdsDict T) rs) (action "CREATEPRODUCT" n) w = Ok (s1, w1)
  /\ for_each dispatch_action
       (action "CREATEPRODUCT" n :: mid ++ [pricelist_action pl_name n price currency])
       (mkLoop (IdsDict T) rs) w =
     Ok (mkLoop (ids s2)
           (results s2 ++
            ["Sample REST request for Siebel price list item:
" +:+ json_dumps (pricelist_payload pl_name (JStr id) price currency)]), w2)
  /\ (forall table product,
        product <> "" ->
        create_pricelist pl_name product price currency (Some table) =
        "Sample REST request for Siebel price list item:
" +:+ json_dumps
        (pricelist_payload pl_name (default (JStr product) (table !! product)) price currency)).
Proof.
  intros Hn Hpl Hprice Hcur Hmid id s1 w1 Hrun.
  assert (dispatch_action (mkLoop (IdsDict T) rs) (action "CREATEPRODUCT" n) w = Ok (s1, w1))
    as Hstep by (apply dispatch_create_product; done).
  split; [exact Hstep|]. split.
  - rewrite for_each_cons, Hstep, for_each_app, Hrun.
    destruct (for_each_table mid s1 w1 s2 w2 _ Hrun eq_refl)
      as (T2 & HT2 & _ & _ & Hkeep & _).
    specialize (Hkeep n Hmid). rewrite lookup_insert_eq in Hkeep.
    destruct s2 as [ids2 rs2]. cbn [ids results] in *. subst ids2.
    rewrite for_each_cons, dispatch_pricelist.
    rewrite create_pricelist_complete by done. rewrite Hkeep. reflexivity.
  - intros table product Hproduct. apply create_pricelist_complete; done.
Qed.

(** C7, as amended. An action record whose type is a string that,
    upper-cased, is neither CREATEPRICELIST nor a key of [tool_map] adds
    the line "Unknown action: <TYPE>" to the results, changes nothing else
    and raises nothing; the loop goes on with the actions after it.  An
    action record whose type is not a string is not taken for an unknown
    action: reading the type in upper case raises [AttributeError], which
    ends the loop before the actions after it. *)
Theorem unknown_action_reported_and_batch_continues
    (pre post : list json) (fields : list (string * json)) (s : Loop) (w : World) :
  (forall t,
      field fields "type" = JStr t ->
      upper t <> "CREATEPRICELIST" ->
      tool_map !! upper t = None ->
      dispatch_action s (JObj fields) w =
        Ok (mkLoop (ids s) (results s ++ ["Unknown action: " +:+ upper t]), w)
      /\ for_each dispatch_action (pre ++ JObj fields :: post) s w =
         match for_each dispatch_action pre s w with
         | Ok (s1, w1) =>
             for_each dispatch_action post
               (mkLoop (ids s1) (results s1 ++ ["Unknown action: " +:+ upper t])) w1
         | Raise e => Raise e
         end)
  /\ (is_str (field fields "type") = false ->
      dispatch_action s (JObj fields) w = Raise AttributeError
      /\ for_each dispatch_action (pre ++ JObj fields :: post) s w =
         match for_each dispatch_action pre s w with
         | Ok _ => Raise AttributeError
         | Raise e => Raise e
         end).
Proof.
  split.
  - intros t Hty Hpl Hnone. split; [apply dispatch_unknown; done|].
    rewrite for_each_app. destruct (for_each dispatch_action pre s w) as [[s1 w1]|e]; [|done].
    rewrite for_each_cons, (dispatch_unknown s1 fields t w1) by done. reflexivity.
  - intros Hty. split; [apply dispatch_untyped; done|].
    rewrite for_each_app. destruct (for_each dispatch_action pre s w) as [[s1 w1]|e]; [|done].
    rewrite for_each_cons, dispatch_untyped by done. reflexivity.
Qed.

(** C10. After a batch, every entry of the table was there before or
    holds, under a non-empty name, an identifier minted during the batch;
    one pass of the loop changes the table only by storing the identifier
    minted for the non-empty name of a product-creation action; a product
    creation without a name answers with the sentinel and stores
    nothing. *)
Theorem table_entries_are_minted_ids
    (actions : list json) (s : Loop) (w : World) (s' : Loop) (w' : World)
    (T : gmap string json) :
  for_each dispatch_action actions s w = Ok (s', w') ->
  ids s = IdsDict T ->
  (exists T',
      ids s' = IdsDict T'
      /\ forall name v, T' !! name = Some v ->
           T !! name = Some v
           \/ (name <> "" /\ exists k, (uuids w <= k < uuids w')%nat /\ v = JStr (uuid4 k)))
  /\ (forall a s0 w0 s1 w1,
        dispatch_action s0 a w0 = Ok (s1, w1) ->
        ids s1 = ids s0
        \/ exists n T0,
             n <> "" /\ creates_product n a = true /\ ids s0 = IdsDict T0
             /\ ids s1 = IdsDict (<[n := JStr (uuid4 (uuids w0))]> T0))
  /\ (forall s0 w0,
        dispatch_action s0 (action "CREATEPRODUCT" "") w0 =
        Ok (mkLoop (ids s0) (results s0 ++ ["MISSING_FIELDS:Product Name"]), w0)).
Proof.
  intros Hrun Hids. split; [|split].
  - destruct (for_each_table _ _ _ _ _ _ Hrun Hids) as (T' & HT' & _ & _ & _ & Hnew).
    exists T'. auto.
  - intros a s0 w0 s1 w1 Hstep.
    apply dispatch_action_cases in Hstep as [_ [(n & T0 & Hn & Hc & H0 & H1 & _)|[H1 _]]].
    + right. exists n, T0. auto.
    + left. done.
  - intros s0 w0. apply dispatch_create_product_unnamed.
Qed.

(** C5. When a required field is empty, [create_pricelist] returns
    "MISSING_FIELDS:" followed by the names of exactly the empty fields,
    separated by commas; with only the currency empty that is
    "MISSING_FIELDS:Currency Code". *)
Theorem pricelist_sentinel_names_empty_fields
    (name product price currency : string) (table : option (gmap string json)) :
  empty_field_names name product price currency <> [] ->
  create_pricelist name product price currency table =
    "MISSING_FIELDS:" +:+ join "," (empty_field_names name product price currency)
  /\ (name <> "" -> product <> "" -> price <> "" -> currency = "" ->
      create_pricelist name product price currency table = "MISSING_FIELDS:Currency Code")
  /\ (forall T rs w,
        dispatch_action (mkLoop (IdsDict T) rs)
          (pricelist_action name product price currency) w =
        Ok (mkLoop (IdsDict T)
              (rs ++ ["MISSING_FIELDS:" +:+
                      join "," (empty_field_names name product price currency)]), w)).
Proof.
  intros Hsome.
  assert (forall ids, create_pricelist name product price currency ids =
          "MISSING_FIELDS:" +:+ join "," (empty_field_names name product price currency))
    as Hsentinel.
  { intros ids. destruct name, product, price, currency; try done; reflexivity. }
  split; [apply Hsentinel|]. split.
  - intros Hn Hp Hpr ->. destruct name, product, price; done.
  - intros T rs w. rewrite dispatch_pricelist, Hsentinel. reflexivity.
Qed.

Lemma is_str_inv v : is_str v = true -> exists t, v = JStr t.
Proof. destruct v; try discriminate. eauto. Qed.

(** A well-formed action never raises while the table is a dict. *)
Lemma dispatch_action_total s a w T :
  well_formed_action a = true -> ids s = IdsDict T ->
  exists s' w', dispatch_action s a w = Ok (s', w').
Proof.
  destruct a as [| | | | |?|fields]; try discriminate. cbn [well_formed_action forallb].
  intros Hwf Hids.
  apply andb_true_iff in Hwf as [(t & Hty)%is_str_inv Hwf].
  apply andb_true_iff in Hwf as [(name & Hname)%is_str_inv Hwf].
  apply andb_true_iff in Hwf as [(product & Hproduct)%is_str_inv Hwf].
  apply andb_true_iff in Hwf as [(price & Hprice)%is_str_inv Hwf].
  apply andb_true_iff in Hwf as [(currency & Hcurrency)%is_str_inv _].
  unfold dispatch_action, py_get.
  repeat match goal with
         | |- context [default (JStr "") (dict_get ?k fields)] =>
             change (default (JStr "") (dict_get k fields)) with (field fields k)
         end.
  rewrite Hty, Hname, Hproduct, Hprice, Hcurrency, Hids. run. cbn [py_upper arg_str arg_dict].
  destruct (String.eqb (upper t) "CREATEPRICELIST"); [eauto|].
  destruct (tool_map !! upper t) as [tool_fn|] eqn:Htool; [|eauto].
  apply tool_map_cases in Htool as [[-> ->]|[_ [g ->]]].
  - unfold create_product. destruct (is_empty name); cbn; eauto.
  - cbn. eauto.
Qed.

Lemma for_each_total actions : forall s w T,
  forallb well_formed_action actions = true -> ids s = IdsDict T ->
  exists s' w', for_each dispatch_action actions s w = Ok (s', w').
Proof.
  induction actions as [|a actions IH]; intros s w T Hwf Hids; [cbn; eauto|].
  apply andb_true_iff in Hwf as [Ha Hwf].
  destruct (dispatch_action_total s a w T Ha Hids) as (s1 & w1 & Hstep).
  rewrite for_each_cons, Hstep.
  destruct (for_each_table [a] s w s1 w1 T) as (T1 & HT1 & _); [|done|eauto].
  rewrite for_each_cons, Hstep. reflexivity.
Qed.

Lemma graph_invoke_unfold input w :
  graph_invoke input w =
  let data := interpreted input w in
  let s1 := merge (graph_input input) (set_llm_response data) in
  match dispatcher s1 (after_interpret ("DEBUG LLM response: " +:+ py_repr data) w) with
  | Ok (u2, w2) => Ok (merge s1 u2, w2)
  | Raise e => Raise e
  end.
Proof. reflexivity. Qed.

Lemma dispatcher_unfold st w :
  dispatcher st w =
  match run_actions st w with
  | Ok (s, w') =>
      Ok (set_result
            (join nl match results s with
                     | [] => ["You said: " +:+ default "" (user_input st)]
                     | rs => rs
                     end), w')
  | Raise e => Raise e
  end.
Proof. unfold dispatcher. run. destruct (run_actions st w) as [[s w']|e]; reflexivity. Qed.

(** A product creation when the state holds a string under
    "product_ids": the product is created and storing its identifier
    raises. *)
Lemma dispatch_create_product_no_table n v rs w :
  n <> "" ->
  dispatch_action (mkLoop (IdsStr v) rs) (action "CREATEPRODUCT" n) w = Raise TypeError.
Proof.
  intros Hn. destruct n as [|c n]; [done|]. unfold action.
  rewrite (dispatch_action_typed _ _ "CREATEPRODUCT") by reflexivity.
  rewrite (upper_literal "CREATEPRODUCT") by reflexivity. reflexivity.
Qed.

(** C8, as amended. A reply that is not JSON is read as no actions and the
    turn ends with the echo of the input; a reply that parses to an object
    whose actions are a list of well-formed action records lets the turn
    end without an exception, as long as the loop's state holds nothing
    under "product_ids"; when it holds an answer there, a reply that starts
    with the creation of a product ends the turn in [TypeError]. *)
Theorem turn_completes_on_bad_json_and_on_well_formed_actions
    (input : gmap string string) (w : World) :
  let reply := strip (co_chat (chats w) (prompt (default "" (input !! "user_input")))) in
  (json_loads reply = None ->
   exists st' w',
     graph_invoke input w = Ok (st', w')
     /\ llm_response st' = Some no_actions
     /\ result st' = Some ("You said: " +:+ default "" (input !! "user_input")))
  /\ (forall fields items,
        json_loads reply = Some (JObj fields) ->
        dict_get "actions" fields = Some (JArr items) ->
        forallb well_formed_action items = true ->
        input !! "product_ids" = None ->
        exists st' w', graph_invoke input w = Ok (st', w'))
  /\ (forall fields n rest v,
        json_loads reply = Some (JObj fields) ->
        dict_get "actions" fields = Some (JArr (action "CREATEPRODUCT" n :: rest)) ->
        n <> "" ->
        input !! "product_ids" = Some v ->
        graph_invoke input w = Raise TypeError).
Proof.
  intros reply. split; [|split].
  - intros Hbad. rewrite graph_invoke_unfold. unfold interpreted. fold reply. rewrite Hbad.
    cbn zeta. rewrite dispatcher_unfold. cbn. eauto.
  - intros fields items Hparse Hactions Hwf Hids.
    rewrite graph_invoke_unfold. unfold interpreted. fold reply. rewrite Hparse.
    cbn zeta. rewrite dispatcher_unfold.
    unfold run_actions. cbn [merge set_llm_response llm_response from_option default id py_get].
    rewrite Hactions. run. cbn [py_iter product_ids graph_input merge set_llm_response].
    rewrite Hids. cbn [fmap option_fmap option_map from_option default id].
    unfold py_iter. cbn beta iota.
    match goal with
    | |- context [for_each dispatch_action items ?s ?w1] =>
        destruct (for_each_total items s w1 ∅ Hwf eq_refl) as (s' & w' & ->)
    end.
    eauto.
  - intros fields n rest v Hparse Hactions Hn Hids.
    rewrite graph_invoke_unfold. unfold interpreted. fold reply. rewrite Hparse.
    cbn zeta. rewrite dispatcher_unfold.
    unfold run_actions. cbn [merge set_llm_response llm_response from_option default id py_get].
    rewrite Hactions. run. cbn [py_iter product_ids graph_input merge set_llm_response].
    rewrite Hids. cbn [fmap option_fmap option_map from_option default id].
    unfold py_iter. cbn beta iota.
    rewrite for_each_cons, dispatch_create_product_no_table by done. reflexivity.
Qed.

End Dispatcher.

(** ** The theorems at work *)

(** The batch of the specification's example, with an unknown action in
    between: the price list for "Widget" carries "id-0", the identifier
    minted for it, not "Widget". *)
Lemma later_pricelist_resolves_minted_id_widget :
  exists s2 w2,
    @for_each _ _ (@dispatch_action (world [] [] [])) [action "FOO" "x"]
      (mkLoop (IdsDict {["Widget" := JStr "id-0"]})
         [render (product_result "id-0" "Widget")])
      (after_create_product (render (product_payload "id-0" "Widget")) start)
    = Ok (s2, w2)
    /\ @for_each _ _ (@dispatch_action (world [] [] []))
         [action "CREATEPRODUCT" "Widget"; action "FOO" "x";
          pricelist_action "NA pricelist" "Widget" "1000" "USD"]
         (mkLoop (IdsDict ∅) []) start
       = Ok (mkLoop (ids s2)
               (results s2 ++
                ["Sample REST request for Siebel price list item:
" +:+ render (pricelist_payload "NA pricelist" (JStr "id-0") "1000" "USD")]), w2).
Proof.
  eexists _, _. split; [reflexivity|].
  refine (proj1 (proj2 (@later_pricelist_resolves_minted_id (world [] [] [])
            "Widget" "NA pricelist" "1000" "USD" [action "FOO" "x"] ∅ [] start _ _
            _ _ _ _ _ _))); try done; reflexivity.
Defined.

(** A batch with the unknown type "foo" between two known actions. *)
Lemma unknown_action_reported_and_batch_continues_foo :
  @for_each _ _ (@dispatch_action (world [] [] []))
    ([action "CREATEPROMOTION" "Summer"] ++
     JObj [("type", JStr "foo"); ("name", JStr "x")] :: [action "CREATEPRODUCTLINE" "Phones"])
    (mkLoop (IdsDict ∅) []) start
  = Ok (mkLoop (IdsDict ∅)
          ["Created promotion: Summer"; "Unknown action: FOO";
           "Created product line: Phones"], start).
Proof.
  refine (eq_trans
            (proj2 (proj1 (@unknown_action_reported_and_batch_continues (world [] [] [])
                             [action "CREATEPROMOTION" "Summer"]
                             [action "CREATEPRODUCTLINE" "Phones"]
                             [("type", JStr "foo"); ("name", JStr "x")]
                             (mkLoop (IdsDict ∅) []) start) "foo" _ _ _)) _);
    try done; reflexivity.
Defined.

(** C7, as stated, fails: JSON's null is not among the types of
    [tool_map], yet an action record with that type gets no "Unknown
    action" line.  The actions after it are not run, and the exception ends
    the turn and the command-line loop. *)
Lemma null_type_aborts_the_batch :
  @for_each _ _ (@dispatch_action null_type_world)
    [action "CREATEPROMOTION" "Summer"; JObj [("type", JNull); ("name", JStr "x")];
     action "CREATEPRODUCTLINE" "Phones"]
    (mkLoop (IdsDict ∅) []) start
  = Raise AttributeError
  /\ @graph_invoke null_type_world {["user_input" := "promote"]} start = Raise AttributeError
  /\ @main null_type_world 2 2 start = Raise AttributeError.
Proof. repeat split; reflexivity. Qed.

(** A batch that tries to create a product without a name and then creates
    "Widget": the table ends with the one minted identifier. *)
Lemma table_entries_are_minted_ids_widget :
  exists T',
    IdsDict {["Widget" := JStr "id-0"]} = IdsDict T'
    /\ forall name v, T' !! name = Some v ->
         (∅ : gmap string json) !! name = Some v
         \/ (name <> "" /\ exists k, (0 <= k < 1)%nat /\ v = JStr ("id-" +:+ str (Z.of_nat k))).
Proof.
  refine (proj1 (@table_entries_are_minted_ids (world [] [] [])
            [action "CREATEPRODUCT" ""; action "CREATEPRODUCT" "Widget"]
            (mkLoop (IdsDict ∅) []) start
            (mkLoop (IdsDict {["Widget" := JStr "id-0"]})
               ["MISSING_FIELDS:Product Name"; render (product_result "id-0" "Widget")])
            (after_create_product (render (product_payload "id-0" "Widget")) start)
            ∅ _ _)); reflexivity.
Defined.

(** The whole turn for that batch, as the command-line loop would print
    it. *)
Example widget_turn :
  result <$>
    (match @graph_invoke widget_world {["user_input" := "create Widget and price it"]} start with
     | Ok (st, _) => Some st
     | Raise _ => None
     end)
  = Some (Some
      (render (product_result "id-0" "Widget") +:+ nl +:+
       "Sample REST request for Siebel price list item:" +:+ nl +:+
       render (pricelist_payload "NA pricelist" (JStr "id-0") "1000" "USD"))).
Proof. vm_compute. reflexivity. Qed.

(** The price-list action of the specification's example without its
    currency. *)
Lemma pricelist_sentinel_names_empty_fields_currency :
  empty_field_names "NA pricelist" "iPhone 16" "1000" "" = ["Currency Code"]
  /\ @create_pricelist (world [] [] []) "NA pricelist" "iPhone 16" "1000" "" None
     = "MISSING_FIELDS:Currency Code".
Proof.
  split; [reflexivity|].
  refine (proj1 (@pricelist_sentinel_names_empty_fields (world [] [] [])
            "NA pricelist" "iPhone 16" "1000" "" None _)). done.
Defined.

(** The chat model answers with text that is not JSON: the turn echoes. *)
Lemma turn_completes_on_bad_json_and_on_well_formed_actions_chatter :
  exists st' w',
    @graph_invoke (world ["Sure! Here is your JSON."] [] []) {["user_input" := "hello"]} start
    = Ok (st', w')
    /\ llm_response st' = Some no_actions
    /\ result st' = Some "You said: hello".
Proof.
  refine (proj1 (@turn_completes_on_bad_json_and_on_well_formed_actions
                   (world ["Sure! Here is your JSON."] [] [])
                   {["user_input" := "hello"]} start) _).
  reflexivity.
Defined.

(** C8, as stated, fails: a reply that is valid JSON but not an object, here
    the empty array, makes [dispatcher] raise, and the exception ends the
    command-line loop without an exit or quit command. *)
Lemma top_level_array_raises :
  @graph_invoke (world ["[]"] [("[]", JArr [])] []) {["user_input" := "hello"]} start
  = Raise AttributeError
  /\ @main (world ["[]"] [("[]", JArr [])] ["hello"]) 2 2 start = Raise AttributeError.
Proof. split; reflexivity. Qed.

End DispatcherFacts.

(* ===================================================================== *)
(** * The command-line loop of the product-model assistant                *)
(* ===================================================================== *)

Module SessionFacts.
Import PyStr Spec Sample SiebelPmAssist MonadFacts DispatcherFacts.

Section Session.
Context `{Externals}.

(** The key of a field whose name is in ASCII. *)
Lemma normalize_key_ascii field :
  is_ascii field = true ->
  normalize_key field = spaces_to_underscores (ascii_lower field).
Proof. intros Hascii. unfold normalize_key. rewrite lower_ascii by done. reflexivity. Qed.

Lemma ask_fields_cons field fields state w :
  ask_fields (field :: fields) state w =
  ask_fields fields (<[normalize_key field := input_line (inputs w)]> state)
    (mkWorld (chats w) (uuids w) (S (inputs w))
       (stdout w ++ ["Please provide " +:+ field +:+ ": "])).
Proof. reflexivity. Qed.


Lemma create_pricelist_no_currency name product price table :
  name <> "" -> product <> "" -> price <> "" ->
  create_pricelist name product price "" table = "MISSING_FIELDS:Currency Code".
Proof. intros. destruct name, product, price; done. Qed.

(** A reply that asks for a price list without a currency makes the turn
    end in the sentinel, whatever else the state holds. *)
Lemma graph_invoke_missing_currency name product price state w :
  name <> "" -> product <> "" -> price <> "" ->
  interpreted state w = batch [pricelist_action name product price ""] ->
  state !! "product_ids" = None ->
  exists st',
    graph_invoke state w =
      Ok (st', after_interpret ("DEBUG LLM response: " +:+ py_repr (interpreted state w)) w)
    /\ result st' = Some "MISSING_FIELDS:Currency Code".
Proof.
  intros Hn Hp Hpr Hreply Hids. rewrite graph_invoke_unfold. cbn zeta.
  rewrite dispatcher_unfold.
  rewrite (run_actions_batch _ [pricelist_action name product price ""])
    by (rewrite Hreply; reflexivity).
  cbn [product_ids merge graph_input set_llm_response]. rewrite Hids.
  cbn [fmap option_fmap option_map from_option default id].
  rewrite for_each_cons, dispatch_pricelist.
  rewrite create_pricelist_no_currency by done.
  eexists. split; reflexivity.
Qed.

(** C2. When the chat model gives the same reply to every call, and that
    reply asks for a price list without a currency, the repair loop asks
    for the currency, stores the answer and runs the turn again, for ever:
    after any number [fuel] of turns it has printed no result. *)
Theorem repair_loop_never_ends_on_a_repeated_reply
    (name product price : string) (fuel : nat) (state : gmap string string) (w : World) :
  name <> "" -> product <> "" -> price <> "" ->
  (forall k p,
      json_loads (strip (co_chat k p)) = Some (batch [pricelist_action name product price ""])) ->
  state !! "product_ids" = None ->
  exists w',
    retry_loop fuel state w = Ok (None, w')
    /\ chats w' = (chats w + fuel)%nat
    /\ inputs w' = (inputs w + fuel)%nat.
Proof.
  intros Hn Hp Hpr Hreply. revert state w.
  induction fuel as [|fuel IH]; intros state w Hids.
  - exists w. cbn. repeat split; lia.
  - assert (interpreted state w = batch [pricelist_action name product price ""]) as Hdata.
    { unfold interpreted. rewrite Hreply. reflexivity. }
    destruct (graph_invoke_missing_currency name product price state w)
      as (st' & Hinvoke & Hresult); try done.
    cbn [retry_loop]. rewrite (bind_ok _ _ _ _ _ Hinvoke). rewrite Hresult.
    cbn [default from_option id].
    change (startswith "MISSING_FIELDS:Currency Code" "MISSING_FIELDS:") with true.
    cbn iota.
    change (fields_of "MISSING_FIELDS:Currency Code") with ["Currency Code"].
    unfold mbind, M_bind. rewrite ask_fields_cons.
    rewrite (normalize_key_ascii "Currency Code") by reflexivity.
    change (spaces_to_underscores (ascii_lower "Currency Code")) with "currency_code".
    cbn [ask_fields for_each]. unfold mret, M_ret.
    match goal with
    | |- context [retry_loop fuel ?st1 ?w1] =>
        destruct (IH st1 w1) as (w' & -> & Hchats & Hinputs)
    end.
    { rewrite lookup_insert_ne by done. exact Hids. }
    exists w'. split; [reflexivity|]. cbn in Hchats, Hinputs. lia.
Qed.

End Session.

(** ** The theorems at work *)

(** Five answers later the loop is still asking. *)
Lemma repair_loop_never_ends_on_a_repeated_reply_usd :
  exists w',
    @retry_loop stubborn_world 5 {["user_input" := "price iPhone 16 at 1000"]} start
    = Ok (None, w')
    /\ chats w' = 5%nat /\ inputs w' = 5%nat.
Proof.
  refine (@repair_loop_never_ends_on_a_repeated_reply stubborn_world
            "NA pricelist" "iPhone 16" "1000" 5
            {["user_input" := "price iPhone 16 at 1000"]} start _ _ _ _ _);
    try done.
  intros k p. cbn. rewrite Nat.min_0_r. reflexivity.
Defined.

End SessionFacts.

(* ===================================================================== *)
(** * What a batch does                                                   *)
(* ===================================================================== *)

Module BatchFacts.
Import PyStr Spec Sample Notions SiebelPmAssist MonadFacts DispatcherFacts.

Section Batch.
Context `{Externals}.

(** What one pass of the loop does to the world: nothing, or what
    [create_product] does. *)
Lemma dispatch_action_world s a w s' w' :
  dispatch_action s a w = Ok (s', w') ->
  w' = w \/ exists printed, w' = after_create_product printed w.
Proof.
  unfold dispatch_action. intros Hrun.
  apply bind_inv in Hrun as (ty & w1 & [Hty ->]%lift_inv & Hrun).
  apply bind_inv in Hrun as (action_type & w1 & [Hup ->]%lift_inv & Hrun).
  apply bind_inv in Hrun as (name & w1 & [Hname ->]%lift_inv & Hrun).
  destruct (String.eqb action_type "CREATEPRICELIST").
  - apply bind_inv in Hrun as (product & w1 & [_ ->]%lift_inv & Hrun).
    apply bind_inv in Hrun as (price & w1 & [_ ->]%lift_inv & Hrun).
    apply bind_inv in Hrun as (currency & w1 & [_ ->]%lift_inv & Hrun).
    apply bind_inv in Hrun as (name' & w1 & [_ ->]%lift_inv & Hrun).
    apply bind_inv in Hrun as (product' & w1 & [_ ->]%lift_inv & Hrun).
    apply bind_inv in Hrun as (price' & w1 & [_ ->]%lift_inv & Hrun).
    apply bind_inv in Hrun as (currency' & w1 & [_ ->]%lift_inv & Hrun).
    apply bind_inv in Hrun as (table & w1 & [_ ->]%lift_inv & Hrun).
    injection Hrun as <- <-. auto.
  - destruct (tool_map !! action_type) as [tool_fn|] eqn:Htool.
    + apply bind_inv in Hrun as (name' & w1 & [_ ->]%lift_inv & Hrun).
      apply bind_inv in Hrun as (result & w1 & Htoolrun & Hrun).
      apply bind_inv in Hrun as (ids' & w2 & [Hids ->]%lift_inv & Hrun).
      injection Hrun as <- <-.
      apply tool_map_cases in Htool as [[_ ->]|[_ [g ->]]].
      * unfold create_product in Htoolrun.
        destruct (is_empty name').
        { injection Htoolrun as <- <-. auto. }
        cbv in Htoolrun. injection Htoolrun as <- <-. right. eexists. reflexivity.
      * injection Htoolrun as <- <-. auto.
    + injection Hrun as <- <-. auto.
Qed.

Lemma for_each_effects (actions : list json) :
  forall s w s' w',
  for_each dispatch_action actions s w = Ok (s', w') ->
  chats w' = chats w
  /\ inputs w' = inputs w
  /\ (uuids w <= uuids w' <= uuids w + length actions)%nat
  /\ length (stdout w') = (length (stdout w) + 2 * (uuids w' - uuids w))%nat
  /\ length (results s') = (length (results s) + length actions)%nat.
Proof.
  induction actions as [|a actions IH]; intros s w s' w' Hrun.
  - injection Hrun as <- <-. cbn. repeat split; lia.
  - rewrite for_each_cons in Hrun.
    destruct (dispatch_action s a w) as [[s1 w1]|e] eqn:Hstep; [|discriminate].
    destruct (IH _ _ _ _ Hrun) as (Hc & Hi & Hu & Hout & Hres).
    pose proof (dispatch_action_cases _ _ _ _ _ Hstep) as [[r Hr] _].
    rewrite Hc, Hi, Hout, Hres, Hr. rewrite length_app. cbn [length].
    apply dispatch_action_world in Hstep as [->|[printed ->]].
    + repeat split; lia.
    + cbn [after_create_product chats inputs uuids stdout] in *.
      rewrite !length_app. cbn [length]. repeat split; lia.
Qed.

(** X5. A batch that runs to its end has not called the chat model nor
    read the console; it has minted at most one identifier per action and
    printed exactly two lines for each identifier minted. *)
Theorem dispatcher_only_mints_and_prints
    (actions : list json) (s : Loop) (w : World) (s' : Loop) (w' : World) :
  for_each dispatch_action actions s w = Ok (s', w') ->
  chats w' = chats w
  /\ inputs w' = inputs w
  /\ (uuids w <= uuids w' <= uuids w + length actions)%nat
  /\ length (stdout w') = (length (stdout w) + 2 * (uuids w' - uuids w))%nat.
Proof. intros Hrun. destruct (for_each_effects _ _ _ _ _ Hrun) as (? & ? & ? & ? & _). auto. Qed.

(** The lines of a batch that runs to its end: one for each action, in
    the order of the actions, each the line its action's pass appends when
    it runs after the actions before it. *)
Lemma for_each_lines (actions : list json) :
  forall s w s' w',
  for_each dispatch_action actions s w = Ok (s', w') ->
  exists rs,
    results s' = results s ++ rs
    /\ length rs = length actions
    /\ forall i a r,
         actions !! i = Some a -> rs !! i = Some r ->
         exists si wi s1 w1,
           for_each dispatch_action (take i actions) s w = Ok (si, wi)
           /\ results si = results s ++ take i rs
           /\ dispatch_action si a wi = Ok (s1, w1)
           /\ results s1 = results si ++ [r].
Proof.
  induction actions as [|a0 actions IH]; intros s w s' w' Hrun.
  - injection Hrun as <- <-. exists []. rewrite app_nil_r. repeat split.
    intros i a r Ha. rewrite lookup_nil in Ha. done.
  - rewrite for_each_cons in Hrun.
    destruct (dispatch_action s a0 w) as [[s1 w1]|e] eqn:Hstep; [|discriminate].
    pose proof (dispatch_action_cases _ _ _ _ _ Hstep) as [[r0 Hr0] _].
    destruct (IH _ _ _ _ Hrun) as (rs & Hrs & Hlen & Hlines).
    exists (r0 :: rs). split; [|split].
    + rewrite Hrs, Hr0, <- app_assoc. reflexivity.
    + cbn [length]. lia.
    + intros [|i] a r Ha Hr.
      * injection Ha as <-. injection Hr as <-.
        exists s, w, s1, w1. cbn [take]. rewrite app_nil_r. done.
      * cbn in Ha, Hr. destruct (Hlines i a r Ha Hr) as (si & wi & s2 & w2 & Hpre & Hsi & Hpass & Hs2).
        exists si, wi, s2, w2. split; [|split; [|done]].
        -- cbn [take]. rewrite for_each_cons, Hstep. exact Hpre.
        -- rewrite Hsi, Hr0, <- app_assoc. reflexivity.
Qed.

(** X6. When [dispatcher] returns for a batch, its result is the echo of
    the input if the batch is empty and otherwise the lines of the actions
    joined by line feeds: one line for each action, in the order of the
    actions, the [i]-th being the line that the pass for the [i]-th action
    appends when it runs after the actions before it. *)
Theorem dispatcher_answers_one_line_per_action
    (st : State) (items : list json) (w : World) (u : State) (w' : World) :
  llm_response st = Some (batch items) ->
  dispatcher st w = Ok (u, w') ->
  exists rs,
    length rs = length items
    /\ (forall i a r,
          items !! i = Some a -> rs !! i = Some r ->
          exists si wi s1 w1,
            for_each dispatch_action (take i items)
              (mkLoop (default (IdsDict ∅) (product_ids st)) []) w = Ok (si, wi)
            /\ results si = take i rs
            /\ dispatch_action si a wi = Ok (s1, w1)
            /\ results s1 = take i rs ++ [r])
    /\ u = set_result
             (match rs with
              | [] => "You said: " +:+ default "" (user_input st)
              | _ => join nl rs
              end).
Proof.
  intros Hresp Hrun. rewrite dispatcher_unfold, (run_actions_batch _ items) in Hrun by done.
  destruct (for_each dispatch_action items _ w) as [[s1 w1]|e] eqn:Hloop; [|discriminate].
  injection Hrun as <- <-.
  destruct (for_each_lines _ _ _ _ _ Hloop) as (rs & Hrs & Hlen & Hlines).
  cbn [results app] in Hrs. exists rs. split; [exact Hlen|]. split.
  - intros i a r Ha Hr.
    destruct (Hlines i a r Ha Hr) as (si & wi & s2 & w2 & Hpre & Hsi & Hpass & Hs2).
    exists si, wi, s2, w2. rewrite Hs2, Hsi. done.
  - rewrite Hrs. destruct rs; reflexivity.
Qed.

(** X7. Two action records that differ only in the case of the letters of
    their type are dispatched alike. *)
Theorem action_type_is_read_in_upper_case
    (s : Loop) (f1 f2 : list (string * json)) (t1 t2 : string) (w : World) :
  field f1 "type" = JStr t1 ->
  field f2 "type" = JStr t2 ->
  upper t1 = upper t2 ->
  (forall key, key <> "type" -> dict_get key f1 = dict_get key f2) ->
  dispatch_action s (JObj f1) w = dispatch_action s (JObj f2) w.
Proof.
  intros Ht1 Ht2 Hupper Hrest. unfold dispatch_action, py_get.
  rewrite (Hrest "name"), (Hrest "product"), (Hrest "price"), (Hrest "currency") by done.
  change (default (JStr "") (dict_get "type" f1)) with (field f1 "type").
  change (default (JStr "") (dict_get "type" f2)) with (field f2 "type").
  rewrite Ht1, Ht2. run. cbn [py_upper]. rewrite Hupper. reflexivity.
Qed.

End Batch.
End BatchFacts.

(* ===================================================================== *)
(** * The sentinels of the tools                                          *)
(* ===================================================================== *)

Module SentinelFacts.
Import PyStr Spec Sample Notions SiebelPmAssist MonadFacts DispatcherFacts SessionFacts.

Section Sentinel.
Context `{Externals}.

(** X8. Every tool of [tool_map] called without a name returns a sentinel
    that reads back as one field, whose key is no key of the graph's state;
    called with a name it returns no sentinel: a sentence that ends with
    the name, with nothing done to the world, or (for a product) the dict
    of the minted identifier and the name. *)
Theorem name_only_tools_ask_for_the_name_exactly_when_it_is_empty
    (t : string) (f : string -> M tool_out) (w : World) :
  tool_map !! t = Some f ->
  (exists label,
      f "" w = Ok (OutStr ("MISSING_FIELDS:" +:+ label), w)
      /\ fields_of ("MISSING_FIELDS:" +:+ label) = [label]
      /\ is_state_key (normalize_key label) = false)
  /\ (forall name,
        name <> "" ->
        exists out w',
          f name w = Ok (out, w')
          /\ match out with
             | OutStr r =>
                 startswith r "MISSING_FIELDS:" = false
                 /\ w' = w /\ exists said, r = said +:+ name
             | OutDict fields =>
                 fields = [("ProductId", JStr (uuid4 (uuids w))); ("name", JStr name)]
             end).
Proof.
  unfold tool_map.
  repeat (rewrite lookup_insert; case_decide;
          [ subst t; intros [= <-]; split;
            [ eexists; split; [reflexivity|]; split; [reflexivity|];
              rewrite normalize_key_ascii by reflexivity; reflexivity
            | intros [|c name] Hname; [done|];
              first
                [ exists (OutDict [("ProductId", JStr (uuid4 (uuids w)));
                                   ("name", JStr (String c name))]),
                    (after_create_product
                       (json_dumps (product_payload (uuid4 (uuids w)) (String c name))) w);
                  split; reflexivity
                | eexists _, _; split; [reflexivity|];
                  split; [reflexivity|]; split; [reflexivity|]; eexists; reflexivity ] ]
          | ]).
  rewrite lookup_empty. discriminate.
Qed.

(** X9. The sentinel [create_pricelist] returns reads back, in the
    command-line loop, as exactly the names of the empty fields, in order;
    none of the keys their answers are stored under is a key of the
    graph's state. *)
Theorem pricelist_sentinel_reads_back_as_its_fields
    (name product price currency : string) (table : option (gmap string json)) :
  empty_field_names name product price currency <> [] ->
  fields_of (create_pricelist name product price currency table)
    = empty_field_names name product price currency
  /\ forallb (fun f => negb (is_state_key (normalize_key f)))
       (empty_field_names name product price currency) = true.
Proof.
  intros Hsome.
  destruct name, product, price, currency; try done;
    (split; [reflexivity|]);
    match goal with
    | |- forallb _ ?names = true =>
        let names' := eval vm_compute in names in change names with names'
    end;
    cbn [forallb]; repeat (rewrite normalize_key_ascii by reflexivity); reflexivity.
Qed.

End Sentinel.
End SentinelFacts.

(* ===================================================================== *)
(** * The repair loop                                                     *)
(* ===================================================================== *)

Module RepairFacts.
Import PyStr Spec Sample Notions SiebelPmAssist MonadFacts DispatcherFacts SessionFacts.

Lemma ask_world_step (w : World) field fields :
  mkWorld (chats w) (uuids w) (S (inputs w) + length fields)
    ((stdout w ++ [field_prompt field]) ++ map field_prompt fields)
  = mkWorld (chats w) (uuids w) (inputs w + length (field :: fields))
      (stdout w ++ map field_prompt (field :: fields)).
Proof.
  cbn [length map]. rewrite <- app_assoc. f_equal. lia.
Qed.

(** A character that the prefix looked for does not hold ends the part of
    a text that decides whether the text starts with the prefix. *)
Lemma prefix_before c p : forall r t,
  lacks c p = true -> String.prefix p (r +:+ String c t) = String.prefix p r.
Proof.
  induction p as [|a p IH]; intros r t Hp.
  - destruct r; reflexivity.
  - cbn [lacks] in Hp. apply andb_true_iff in Hp as [Ha Hp].
    apply negb_true_iff, Ascii.eqb_neq in Ha.
    destruct r as [|b r].
    + change ("" +:+ String c t) with (String c t). cbn.
      destruct (ascii_dec a c); [done | reflexivity].
    + change (String b r +:+ String c t) with (String b (r +:+ String c t)). cbn.
      destruct (ascii_dec a b); [apply IH; done | reflexivity].
Qed.

Lemma startswith_join r rs :
  startswith (join nl (r :: rs)) "MISSING_FIELDS:" = startswith r "MISSING_FIELDS:".
Proof.
  destruct rs as [|r' rs]; [reflexivity|]. unfold startswith. cbn [join].
  change (nl +:+ join nl (r' :: rs)) with (String (ascii_of_nat 10) (join nl (r' :: rs))).
  apply prefix_before. reflexivity.
Qed.

Section Repair.
Context `{Externals}.

Lemma ask_fields_exact (fields : list string) :
  forall (state : gmap string string) (w : World),
  exists state',
    ask_fields fields state w =
      Ok (state', mkWorld (chats w) (uuids w) (inputs w + length fields)
                    (stdout w ++ map field_prompt fields))
    /\ (forall key, key ∉ normalize_key <$> fields -> state' !! key = state !! key)
    /\ (forall i f,
          fields !! i = Some f ->
          (forall j g, (i < j)%nat -> fields !! j = Some g ->
                       normalize_key g <> normalize_key f) ->
          state' !! normalize_key f = Some (input_line (inputs w + i))).
Proof.
  induction fields as [|field fields IH]; intros state w.
  - exists state. split; [|split].
    + cbn. rewrite Nat.add_0_r, app_nil_r. destruct w; reflexivity.
    + done.
    + intros i f Hi. rewrite lookup_nil in Hi. done.
  - rewrite ask_fields_cons.
    destruct (IH (<[normalize_key field := input_line (inputs w)]> state)
                (mkWorld (chats w) (uuids w) (S (inputs w))
                   (stdout w ++ ["Please provide " +:+ field +:+ ": "])))
      as (state' & -> & Hother & Hasked).
    exists state'. split; [|split].
    + cbn [chats uuids inputs stdout]. f_equal. f_equal. apply ask_world_step.
    + intros key Hkey. rewrite fmap_cons in Hkey.
      apply not_elem_of_cons in Hkey as [Hne Hkey].
      rewrite Hother by done. apply lookup_insert_ne. done.
    + intros [|i] f Hi Hlater.
      * cbn in Hi. injection Hi as <-. rewrite Nat.add_0_r.
        rewrite Hother; [apply lookup_insert_eq|].
        intros (g & Hg & [j Hj]%list_elem_of_lookup)%list_elem_of_fmap.
        apply (Hlater (S j) g); [lia | exact Hj | done].
      * cbn in Hi. rewrite (Hasked i f Hi).
        { cbn [inputs]. f_equal. f_equal. lia. }
        intros j g Hj Hg. apply (Hlater (S j) g); [lia | exact Hg].
Qed.

(** X10. The repair loop asks for the fields in order, one prompt and one
    line read for each, and calls neither the model nor [uuid4]; keys it
    does not ask for keep their values, and the key of a field holds the
    answer to the last prompt for that key. *)
Theorem ask_fields_prompts_in_order_and_keeps_the_last_answer
    (fields : list string) (state : gmap string string) (w : World) :
  exists state',
    ask_fields fields state w =
      Ok (state', mkWorld (chats w) (uuids w) (inputs w + length fields)
                    (stdout w ++ map field_prompt fields))
    /\ (forall key, key ∉ normalize_key <$> fields -> state' !! key = state !! key)
    /\ (forall i f,
          fields !! i = Some f ->
          (forall j g, (i < j)%nat -> fields !! j = Some g ->
                       normalize_key g <> normalize_key f) ->
          state' !! normalize_key f = Some (input_line (inputs w + i))).
Proof. apply ask_fields_exact. Qed.

Lemma ask_fields_other_keys fields state w state' w' key :
  ask_fields fields state w = Ok (state', w') ->
  key ∉ normalize_key <$> fields -> state' !! key = state !! key.
Proof.
  intros Hask Hkey.
  destruct (ask_fields_exact fields state w) as (state1 & Hask1 & Hother & _).
  rewrite Hask1 in Hask. injection Hask as <- _. auto.
Qed.

Lemma not_state_key fields key :
  forallb (fun f => negb (is_state_key (normalize_key f))) fields = true ->
  key ∈ state_keys -> key ∉ normalize_key <$> fields.
Proof.
  intros Hall Hkey (f & -> & Hf)%list_elem_of_fmap.
  rewrite forallb_forall in Hall. apply list_elem_of_In, Hall, negb_true_iff in Hf.
  unfold is_state_key in Hf.
  assert (existsb (String.eqb (normalize_key f)) state_keys = true) as Hin; [|congruence].
  apply existsb_exists. exists (normalize_key f).
  split; [apply list_elem_of_In; exact Hkey | apply String.eqb_refl].
Qed.

(** X11. When no field's key is a key of the graph's state, the answers
    the repair loop has stored change nothing of what the graph reads:
    invoking the graph on the repaired state is the same computation as
    invoking it on the state before the repair. *)
Theorem repair_answers_do_not_reach_the_graph
    (fields : list string) (state : gmap string string) (w : World)
    (state' : gmap string string) (w' : World) :
  ask_fields fields state w = Ok (state', w') ->
  forallb (fun f => negb (is_state_key (normalize_key f))) fields = true ->
  graph_input state' = graph_input state
  /\ forall w0, graph_invoke state' w0 = graph_invoke state w0.
Proof.
  intros Hask Hkeys.
  assert (forall key, key ∈ state_keys -> state' !! key = state !! key) as Hsame.
  { intros key Hkey. eapply ask_fields_other_keys; [exact Hask|].
    apply not_state_key; done. }
  assert (graph_input state' = graph_input state) as Hinput.
  { unfold graph_input. rewrite !Hsame by (unfold state_keys; set_solver). reflexivity. }
  split; [exact Hinput|].
  intros w0. rewrite !graph_invoke_unfold. unfold interpreted.
  rewrite Hinput, (Hsame "user_input") by (unfold state_keys; set_solver). reflexivity.
Qed.

(** X12. The command-line loop looks for the sentinel at the start of the
    joined result: when the line of the first action is no sentinel, the
    loop prints the whole result, sentinels of later actions included, and
    ends the turn after this one invocation without asking anything. *)
Theorem only_the_first_line_can_start_a_repair
    (state : gmap string string) (w : World) (a : json) (rest : list json)
    (s : Loop) (w' : World) (r : string) (fuel : nat) :
  interpreted state w = batch (a :: rest) ->
  for_each dispatch_action (a :: rest)
    (mkLoop (default (IdsDict ∅) (IdsStr <$> state !! "product_ids")) [])
    (after_interpret ("DEBUG LLM response: " +:+ py_repr (batch (a :: rest))) w)
  = Ok (s, w') ->
  head (results s) = Some r ->
  startswith r "MISSING_FIELDS:" = false ->
  retry_loop (S fuel) state w =
  Ok (Some state,
      mkWorld (chats w') (uuids w') (inputs w')
        (stdout w' ++ ["Bot: " +:+ join nl (results s)])).
Proof.
  intros Hreply Hrun Hhead Hnot.
  cbn [retry_loop]. unfold mbind at 1, M_bind. rewrite graph_invoke_unfold. cbn zeta.
  rewrite dispatcher_unfold.
  rewrite (run_actions_batch _ (a :: rest)) by (rewrite Hreply; reflexivity).
  rewrite Hreply. cbn [product_ids merge graph_input set_llm_response from_option].
  change (from_option Some (IdsStr <$> state !! "product_ids") None)
    with (IdsStr <$> state !! "product_ids").
  rewrite Hrun. destruct (results s) as [|r1 rs] eqn:Hres; [discriminate|].
  injection Hhead as ->.
  cbn [result merge set_result from_option default id].
  rewrite startswith_join, Hnot. reflexivity.
Qed.

(** What an invocation of the graph that returns has done. *)
Lemma graph_invoke_effects
    (state : gmap string string) (w : World) (st' : State) (w' : World) :
  graph_invoke state w = Ok (st', w') ->
  chats w' = S (chats w)
  /\ inputs w' = inputs w
  /\ user_input st' = state !! "user_input"
  /\ llm_response st' = Some (interpreted state w)
  /\ is_Some (result st')
  /\ length (stdout w') = (length (stdout w) + 1 + 2 * (uuids w' - uuids w))%nat.
Proof.
  rewrite graph_invoke_unfold. cbn zeta. rewrite dispatcher_unfold.
  destruct (run_actions _ _) as [[s w1]|e] eqn:Hrun; [|discriminate].
  intros [= <- <-].
  unfold run_actions in Hrun.
  apply bind_inv in Hrun as (actions & w2 & [_ ->]%lift_inv & Hrun).
  apply bind_inv in Hrun as (items & w2 & [_ ->]%lift_inv & Hrun).
  apply BatchFacts.for_each_effects in Hrun as (Hc & Hi & Hu & Hout & _).
  cbn [after_interpret chats inputs uuids stdout] in *.
  rewrite length_app in Hout. cbn [length] in Hout.
  cbn. repeat split; try done; try lia.
Qed.

(** X13. A turn that returns has called the chat model exactly once and
    read nothing from the console; the state it returns holds the input
    unchanged, the parsed reply and always a result; it has printed the
    debug line and two lines for each identifier minted. *)
Theorem turn_calls_the_model_once_and_always_answers
    (state : gmap string string) (w : World) (st' : State) (w' : World) :
  graph_invoke state w = Ok (st', w') ->
  chats w' = S (chats w)
  /\ inputs w' = inputs w
  /\ user_input st' = state !! "user_input"
  /\ llm_response st' = Some (interpreted state w)
  /\ is_Some (result st')
  /\ length (stdout w') = (length (stdout w) + 1 + 2 * (uuids w' - uuids w))%nat.
Proof. apply graph_invoke_effects. Qed.

End Repair.
End RepairFacts.

(* ===================================================================== *)
(** * What outlives a turn of the product-model assistant                 *)
(* ===================================================================== *)

Module StateFacts.
Import PyStr Spec Sample Notions SiebelPmAssist MonadFacts DispatcherFacts SessionFacts.
Import BatchFacts RepairFacts.


Section State.
Context `{Externals}.








End State.


End StateFacts.

(* ===================================================================== *)
(** * Replies that are not what the prompt asks for                       *)
(* ===================================================================== *)

Module EchoFacts.
Import PyStr Spec Sample Notions SiebelPmAssist MonadFacts DispatcherFacts SessionFacts.

Section Echo.
Context `{Externals}.

(** A turn whose reply is not JSON: one call of the model, the debug line
    and the echo. *)
Lemma retry_loop_echo fuel state w :
  json_loads (strip (co_chat (chats w) (prompt (default "" (state !! "user_input"))))) = None ->
  retry_loop (S fuel) state w =
  Ok (Some state,
      mkWorld (S (chats w)) (uuids w) (inputs w)
        ((stdout w ++ ["DEBUG LLM response: " +:+ py_repr no_actions])
           ++ ["Bot: You said: " +:+ default "" (state !! "user_input")])).
Proof.
  intros Hbad. cbn [retry_loop]. unfold mbind at 1, M_bind.
  rewrite graph_invoke_unfold. unfold interpreted. rewrite Hbad. cbn zeta.
  rewrite dispatcher_unfold. reflexivity.
Qed.

(** X14. When no reply of the chat model is JSON, a session of [n] lines
    followed by exit or quit ends there: each line costs one call of the
    model and is echoed, the console shows exactly the prompts, debug lines
    and echoes and then "Goodbye!", and the state changes only under
    "user_input". *)
Theorem session_echoes_every_line_when_no_reply_is_json (n fuel : nat) :
  forall (state : gmap string string) (w : World),
  (forall k p, json_loads (strip (co_chat k p)) = None) ->
  (forall i, (i < n)%nat -> HelloLg2Cli.is_exit (input_line (inputs w + i)) = false) ->
  HelloLg2Cli.is_exit (input_line (inputs w + n)) = true ->
  exists state' w',
    main_loop (S n) (S fuel) state w = Ok (Exited state', w')
    /\ chats w' = (chats w + n)%nat
    /\ inputs w' = (inputs w + S n)%nat
    /\ uuids w' = uuids w
    /\ stdout w' =
         stdout w
         ++ concat (map (fun i => echoed_turn (py_repr no_actions) (input_line (inputs w + i)))
                      (seq 0 n))
         ++ ["You: "; "Goodbye!"]
    /\ (forall key, key <> "user_input" -> state' !! key = state !! key).
Proof.
  intros state w Hbad. revert state w.
  induction n as [|n IH]; intros state w Hlines Hexit.
  - rewrite Nat.add_0_r in Hexit. unfold HelloLg2Cli.is_exit in Hexit.
    exists state. eexists. split.
    { cbn [main_loop]. unfold mbind at 1, M_bind. cbn [input].
      rewrite Hexit. reflexivity. }
    cbn. rewrite <- app_assoc. repeat split; try done; lia.
  - assert (HelloLg2Cli.is_exit (input_line (inputs w)) = false) as Hfirst.
    { rewrite <- (Nat.add_0_r (inputs w)). apply Hlines. lia. }
    unfold HelloLg2Cli.is_exit in Hfirst.
    set (w1 := mkWorld (chats w) (uuids w) (S (inputs w)) (stdout w ++ ["You: "])).
    set (state1 := <["user_input" := input_line (inputs w)]> state).
    set (w2 := mkWorld (S (chats w1)) (uuids w1) (inputs w1)
                 ((stdout w1 ++ ["DEBUG LLM response: " +:+ py_repr no_actions])
                    ++ ["Bot: You said: " +:+ input_line (inputs w)])).
    destruct (IH state1 w2) as (state' & w' & Hrun & Hc & Hi & Hu & Hout & Hkeys).
    { intros i Hi. cbn [w2 w1 inputs].
      replace (S (inputs w) + i)%nat with (inputs w + S i)%nat by lia. apply Hlines. lia. }
    { cbn [w2 w1 inputs].
      replace (S (inputs w) + n)%nat with (inputs w + S n)%nat by lia. exact Hexit. }
    exists state', w'. split.
    { cbn [main_loop]. unfold mbind at 1, M_bind. cbn [input]. rewrite Hfirst.
      fold w1 state1. unfold mbind at 1, M_bind.
      rewrite retry_loop_echo by apply Hbad.
      assert (state1 !! "user_input" = Some (input_line (inputs w))) as ->
        by apply lookup_insert_eq.
      exact Hrun. }
    rewrite Hc, Hi, Hu, Hout. cbn [w2 w1 chats inputs uuids stdout].
    split; [lia|]. split; [lia|]. split; [done|]. split.
    + cbn [seq map concat]. rewrite Nat.add_0_r. rewrite <- seq_shift, map_map.
      rewrite (map_ext (fun i => echoed_turn (py_repr no_actions) (input_line (inputs w + S i)))
                 (fun i => echoed_turn (py_repr no_actions) (input_line (S (inputs w) + i))))
        by (intros i; do 2 f_equal; lia).
      rewrite <- !app_assoc. reflexivity.
    + intros key Hkey. rewrite Hkeys by done. apply lookup_insert_ne. done.
Qed.

(** X15. Creating a product twice under one name in a batch mints two
    identifiers, and the table keeps the second: a price list for the name
    that follows carries the second identifier. *)
Theorem a_later_creation_replaces_the_identifier
    (n pl_name price currency : string) (T : gmap string json) (rs : list string)
    (w : World) :
  n <> "" -> pl_name <> "" -> price <> "" -> currency <> "" ->
  let id1 := uuid4 (uuids w) in
  let id2 := uuid4 (S (uuids w)) in
  let w1 := after_create_product (json_dumps (product_payload id1 n)) w in
  let w2 := after_create_product (json_dumps (product_payload id2 n)) w1 in
  for_each dispatch_action
    [action "CREATEPRODUCT" n; action "CREATEPRODUCT" n;
     pricelist_action pl_name n price currency]
    (mkLoop (IdsDict T) rs) w =
  Ok (mkLoop (IdsDict (<[n := JStr id2]> T))
        (((rs ++ [json_dumps (product_result id1 n)])
            ++ [json_dumps (product_result id2 n)])
           ++ ["Sample REST request for Siebel price list item:
" +:+ json_dumps (pricelist_payload pl_name (JStr id2) price currency)]), w2).
Proof.
  intros Hn Hpl Hprice Hcur id1 id2 w1 w2.
  rewrite for_each_cons, dispatch_create_product by done. fold id1 w1.
  rewrite for_each_cons, dispatch_create_product by done.
  change (uuid4 (uuids w1)) with id2. fold w2.
  rewrite insert_insert_eq.
  rewrite for_each_cons, dispatch_pricelist, create_pricelist_complete by done.
  rewrite lookup_insert_eq. reflexivity.
Qed.

(** X16. What [dispatcher] does with a reply of the wrong shape: a reply
    that is not an object, or whose actions are a non-empty string, a
    non-empty object or a list that starts with something else than an
    object, raises AttributeError; actions that are null, a boolean or a
    number raise TypeError; actions that are missing or an empty list,
    string or object give the echo of the input. *)
Theorem dispatcher_on_a_reply_of_the_wrong_shape (st : State) (w : World) :
  match default (JObj []) (llm_response st) with
  | JObj fields =>
      match default (JArr []) (dict_get "actions" fields) with
      | JNull | JBool _ | JInt _ | JFloat _ => dispatcher st w = Raise TypeError
      | JStr (String _ _) | JObj (_ :: _) => dispatcher st w = Raise AttributeError
      | JArr (JObj _ :: _) => True
      | JArr (_ :: _) => dispatcher st w = Raise AttributeError
      | JStr EmptyString | JObj [] | JArr [] =>
          dispatcher st w =
          Ok (set_result ("You said: " +:+ default "" (user_input st)), w)
      end
  | _ => dispatcher st w = Raise AttributeError
  end.
Proof.
  rewrite dispatcher_unfold. unfold run_actions.
  destruct (default (JObj []) (llm_response st)) as [| | | | |?|fields]; try reflexivity.
  cbn [py_get]. unfold mbind at 1, M_bind. cbn [lift].
  destruct (default (JArr []) (dict_get "actions" fields))
    as [| | | |[|c text]|[|[] items]|[|[k v] more]]; try reflexivity.
Qed.

End Echo.
End EchoFacts.

(* ===================================================================== *)
(** * The label of the arithmetic assistant                               *)
(* ===================================================================== *)

Module LabelFacts.
Import PyStr Spec Notions HelloLg2 RouterFacts.

Lemma upper_char_space c : is_space c = true -> upper_char c = c.
Proof.
  intros Hc. unfold upper_char. destruct (is_lower c) eqn:Hl; [|done].
  unfold is_space, is_lower in *. cbn zeta in *.
  repeat match goal with
         | H : _ && _ = true |- _ => apply andb_true_iff in H as [? ?]
         | H : _ || _ = true |- _ => apply orb_true_iff in H as [?|?]
         | H : (_ <=? _)%nat = true |- _ => apply Nat.leb_le in H
         end; lia.
Qed.

Lemma rstrip_cons c s :
  is_space c = false -> ascii_rstrip (String c s) = String c (ascii_rstrip s).
Proof. intros Hc. cbn [ascii_rstrip]. rewrite Hc. destruct (ascii_rstrip s); reflexivity. Qed.

(** Trailing whitespace does not change what a text starts with, as long
    as the prefix looked for holds no whitespace. *)
Lemma prefix_upper_rstrip p : forall s,
  no_space p = true ->
  String.prefix p (ascii_upper (ascii_rstrip s)) = String.prefix p (ascii_upper s).
Proof.
  induction p as [|a p IH]; intros s Hp.
  - destruct (ascii_upper (ascii_rstrip s)), (ascii_upper s); reflexivity.
  - cbn [no_space] in Hp. apply andb_true_iff in Hp as [Ha Hp].
    apply negb_true_iff in Ha.
    destruct s as [|c s]; [reflexivity|].
    destruct (is_space c) eqn:Hc.
    + assert (String.prefix (String a p) (ascii_upper (String c s)) = false) as ->.
      { cbn. rewrite (upper_char_space c Hc).
        destruct (ascii_dec a c) as [->|]; [congruence | reflexivity]. }
      cbn [ascii_rstrip]. rewrite Hc. destruct (ascii_rstrip s); [reflexivity|].
      cbn. rewrite (upper_char_space c Hc).
      destruct (ascii_dec a c) as [->|]; [congruence | reflexivity].
    + rewrite (rstrip_cons _ _ Hc). cbn.
      destruct (ascii_dec a (upper_char c)); [apply IH; done | reflexivity].
Qed.

Lemma lstrip_spaces ws s : all_space ws = true -> ascii_lstrip (ws +:+ s) = ascii_lstrip s.
Proof.
  induction ws as [|c ws IH]; [reflexivity|]. cbn [all_space].
  intros [Hc Hws]%andb_true_iff.
  change (String c ws +:+ s) with (String c (ws +:+ s)). cbn [ascii_lstrip]. rewrite Hc. auto.
Qed.

Lemma upper_app s t : ascii_upper (s +:+ t) = ascii_upper s +:+ ascii_upper t.
Proof.
  induction s as [|c s IH]; [reflexivity|].
  change (String c s +:+ t) with (String c (s +:+ t)). cbn [ascii_upper map_chars].
  unfold ascii_upper in IH. rewrite IH. reflexivity.
Qed.

Lemma prefix_app p t : String.prefix p (p +:+ t) = true.
Proof.
  induction p as [|a p IH]; [destruct t; reflexivity|].
  change (String a p +:+ t) with (String a (p +:+ t)). cbn [String.prefix].
  destruct (ascii_dec a a); [exact IH | done].
Qed.

(** A keyword after whitespace, in any case, followed by anything. *)
Lemma startswith_keyword ws kw tail K :
  all_space ws = true -> ascii_upper kw = K -> no_space K = true -> K <> "" ->
  startswith (ascii_upper (ascii_lstrip (ws +:+ kw +:+ tail))) K = true.
Proof.
  intros Hws Hkw HK Hne. rewrite lstrip_spaces by done.
  destruct kw as [|c kw]; [cbn in Hkw; congruence|].
  assert (is_space c = false) as Hc.
  { destruct (is_space c) eqn:Hc; [|done].
    subst K. cbn in HK. rewrite (upper_char_space c Hc), Hc in HK. done. }
  change (String c kw +:+ tail) with (String c (kw +:+ tail)).
  cbn [ascii_lstrip]. rewrite Hc. unfold startswith.
  change (String c (kw +:+ tail)) with (String c kw +:+ tail).
  rewrite upper_app, Hkw. apply prefix_app.
Qed.

(** Stripping an ASCII text leaves an ASCII text. *)
Lemma is_ascii_lstrip s : is_ascii s = true -> is_ascii (ascii_lstrip s) = true.
Proof.
  induction s as [|c s IH]; [done|]. intros Hs. cbn [ascii_lstrip].
  destruct (is_space c); [|exact Hs].
  cbn [is_ascii] in Hs. apply andb_true_iff in Hs as [_ Hs]. auto.
Qed.

Lemma is_ascii_rstrip s : is_ascii s = true -> is_ascii (ascii_rstrip s) = true.
Proof.
  induction s as [|c s IH]; [done|]. cbn [is_ascii ascii_rstrip].
  intros [Hc Hs]%andb_true_iff. specialize (IH Hs).
  destruct (ascii_rstrip s) as [|d r].
  - destruct (is_space c); [reflexivity|]. cbn [is_ascii]. rewrite Hc. reflexivity.
  - cbn [is_ascii] in *. rewrite Hc, IH. reflexivity.
Qed.

Section Label.
Context `{Externals}.

(** The label of a reply in ASCII. *)
Lemma label_ascii reply :
  is_ascii reply = true -> upper (strip reply) = ascii_upper (ascii_strip reply).
Proof.
  intros Hascii. rewrite strip_ascii by done.
  apply upper_ascii, is_ascii_rstrip, is_ascii_lstrip, Hascii.
Qed.

(** X2. For a reply of the chat model in ASCII, the route depends on the
    reply only through its text without leading whitespace, in upper case:
    trailing whitespace is of no account, and a reply made of whitespace, a
    keyword in any case and any text after it takes the keyword's route. *)
Theorem route_ignores_case_whitespace_and_trailing_text (st : State) (w : World) :
  let reply := co_chat (chats w) (prompt (default "" (user_input st))) in
  let s1 := merge st (set_llm_response (upper (strip reply))) in
  is_ascii reply = true ->
  run_node "interpret" st w
    = Ok (s1, after_interpret ("DEBUG LLM response: " +:+ upper (strip reply)) w)
  /\ decide s1 =
    (if startswith (ascii_upper (ascii_lstrip reply)) "ADD" then "add_tool"
     else if startswith (ascii_upper (ascii_lstrip reply)) "SUBTRACT" then "subtract_tool"
     else if startswith (ascii_upper (ascii_lstrip reply)) "MULTIPLY" then "multiply_tool"
     else "echo")
  /\ (forall ws kw tail,
        all_space ws = true ->
        reply = ws +:+ kw +:+ tail ->
        (ascii_upper kw = "ADD" -> decide s1 = "add_tool")
        /\ (ascii_upper kw = "SUBTRACT" -> decide s1 = "subtract_tool")
        /\ (ascii_upper kw = "MULTIPLY" -> decide s1 = "multiply_tool")).
Proof.
  intros reply s1 Hascii.
  split; [apply run_interpret|].
  assert (decide s1 =
    (if startswith (ascii_upper (ascii_lstrip reply)) "ADD" then "add_tool"
     else if startswith (ascii_upper (ascii_lstrip reply)) "SUBTRACT" then "subtract_tool"
     else if startswith (ascii_upper (ascii_lstrip reply)) "MULTIPLY" then "multiply_tool"
     else "echo")) as Hroute.
  { unfold decide, s1. cbn [merge set_llm_response llm_response from_option default id].
    rewrite (label_ascii reply Hascii). unfold startswith, ascii_strip.
    rewrite !prefix_upper_rstrip by reflexivity. reflexivity. }
  split; [exact Hroute|].
  intros ws kw tail Hws Hreply. rewrite Hroute, Hreply.
  split; [|split]; intros Hkw.
  - rewrite (startswith_keyword ws kw tail "ADD") by done. reflexivity.
  - pose proof (startswith_keyword ws kw tail "SUBTRACT" Hws Hkw eq_refl ltac:(done)) as Hs.
    rewrite (startswith_first_char _ "S" "UBTRACT" "A" "DD") by done.
    rewrite Hs. reflexivity.
  - pose proof (startswith_keyword ws kw tail "MULTIPLY" Hws Hkw eq_refl ltac:(done)) as Hm.
    rewrite (startswith_first_char _ "M" "ULTIPLY" "A" "DD") by done.
    rewrite (startswith_first_char _ "M" "ULTIPLY" "S" "UBTRACT") by done.
    rewrite Hm. reflexivity.
Qed.

End Label.
End LabelFacts.

(* ===================================================================== *)
(** * The command-line loop of the arithmetic assistant                   *)
(* ===================================================================== *)

Module LoopFacts.
Import PyStr Spec Notions HelloLg2 HelloLg2Cli MonadFacts RouterFacts.

Section Loop.
Context `{Externals}.

(** A handler that returns has done nothing to the world and gives a
    result. *)
Lemma handler_for_returns label st w update w' :
  handler_for label st w = Ok (update, w') -> w' = w /\ is_Some (result update).
Proof.
  unfold handler_for. intros Hrun.
  repeat case_match;
    try (apply bind_inv in Hrun as (r & w1 & [_ ->]%lift_inv & Hrun));
    injection Hrun as <- <-; cbn; eauto.
Qed.

Lemma turn_unfold user w :
  let label := upper (strip (co_chat (chats w) (prompt user))) in
  let s1 := mkState (Some user) (Some label) None in
  let w1 := after_interpret ("DEBUG LLM response: " +:+ label) w in
  turn user w =
  match handler_for label s1 w1 with
  | Ok (update, w2) =>
      Ok (tt, mkWorld (chats w2) (uuids w2) (inputs w2)
                (stdout w2 ++ ["Bot: " +:+ default "â€¦" (result (merge s1 update))]))
  | Raise e => Raise e
  end.
Proof.
  intros label s1 w1. unfold turn. unfold mbind at 1, M_bind.
  rewrite arithmetic_invoke_unfold. cbn zeta.
  change (default "" (user_input (mkState (Some user) None None))) with user.
  fold label.
  change (merge (mkState (Some user) None None) (set_llm_response label)) with s1.
  fold w1. destruct (handler_for label s1 w1) as [[update w2]|e]; reflexivity.
Qed.

(** A turn raises [ValueError] or calls the chat model once and prints
    two lines. *)
Lemma turn_effects user w :
  turn user w = Raise ValueError
  \/ exists w',
       turn user w = Ok (tt, w')
       /\ chats w' = S (chats w) /\ uuids w' = uuids w /\ inputs w' = inputs w
       /\ exists debug bot, stdout w' = stdout w ++ [debug; bot].
Proof.
  rewrite turn_unfold. cbn zeta.
  destruct (handler_for _ _ _) as [[update w1]|e] eqn:Hrun.
  - right. apply handler_for_returns in Hrun as [-> _].
    eexists. split; [reflexivity|]. cbn. rewrite <- app_assoc. eauto 10.
  - left. apply handler_for_raises in Hrun as ->. reflexivity.
Qed.

Lemma main_loop_step turns w :
  main_loop (S turns) w =
  let user := input_line (inputs w) in
  let w1 := mkWorld (chats w) (uuids w) (S (inputs w)) (stdout w ++ ["You: "]) in
  if is_exit user then
    Ok (Exited, mkWorld (chats w1) (uuids w1) (inputs w1) (stdout w1 ++ ["Goodbye!"]))
  else
    match turn user w1 with
    | Ok (_, w2) => main_loop turns w2
    | Raise e => Raise e
    end.
Proof.
  cbn [main_loop]. unfold mbind at 1, M_bind. cbn [input]. cbn zeta.
  destruct (is_exit _); [reflexivity|].
  unfold mbind at 1, M_bind. destruct (turn _ _) as [[[] w2]|e]; reflexivity.
Qed.

(** X4. When the [n] lines read first are neither exit nor quit and the
    next one is, in any case of its letters, then, unless a tool raises
    [ValueError] on the way, the loop ends there with "Goodbye!", having
    called the chat model once and printed three lines for each of the [n]
    lines, whatever the model answered. *)
Theorem loop_ends_at_the_first_exit_line (n extra : nat) (w : World) :
  (forall i, (i < n)%nat -> is_exit (input_line (inputs w + i)) = false) ->
  is_exit (input_line (inputs w + n)) = true ->
  main_loop (S n + extra) w = Raise ValueError
  \/ exists w',
       main_loop (S n + extra) w = Ok (Exited, w')
       /\ chats w' = (chats w + n)%nat
       /\ inputs w' = (inputs w + S n)%nat
       /\ uuids w' = uuids w
       /\ length (stdout w') = (length (stdout w) + 3 * n + 2)%nat
       /\ last (stdout w') = Some "Goodbye!".
Proof.
  revert w. induction n as [|n IH]; intros w Hlines Hexit.
  - right. rewrite Nat.add_0_r in Hexit. cbn [Nat.add]. rewrite main_loop_step. cbn zeta.
    rewrite Hexit.
    eexists. split; [reflexivity|]. cbn. rewrite !length_app. cbn.
    repeat split; try lia. apply last_snoc.
  - assert (is_exit (input_line (inputs w)) = false) as Hfirst.
    { rewrite <- (Nat.add_0_r (inputs w)). apply Hlines. lia. }
    cbn [Nat.add]. rewrite main_loop_step. cbn zeta. rewrite Hfirst.
    set (w1 := mkWorld (chats w) (uuids w) (S (inputs w)) (stdout w ++ ["You: "])).
    destruct (turn_effects (input_line (inputs w)) w1)
      as [->|(w2 & -> & Hchats & Huuids & Hinputs & debug & bot & Hout)]; [auto|].
    destruct (IH w2) as [Hraise|(w' & Hrun & Hc & Hi & Hu & Hlen & Hlast)].
    { intros i Hi. rewrite Hinputs. cbn [inputs w1].
      replace (S (inputs w) + i)%nat with (inputs w + S i)%nat by lia.
      apply Hlines. lia. }
    { rewrite Hinputs. cbn [inputs w1].
      replace (S (inputs w) + n)%nat with (inputs w + S n)%nat by lia. exact Hexit. }
    { left. exact Hraise. }
    right. exists w'. split; [exact Hrun|].
    rewrite Hc, Hi, Hu, Hlen, Hchats, Huuids, Hinputs, Hout. cbn [chats uuids inputs stdout w1].
    rewrite !length_app. cbn [length]. repeat split; try lia. exact Hlast.
Qed.

End Loop.
End LoopFacts.

(* ===================================================================== *)
(** * The arithmetic assistant at work                                    *)
(* ===================================================================== *)

Module ArithmeticExamples.
Import PyStr Spec Sample Notions.
Import HelloLg2 HelloLg2Cli DecimalFacts LabelFacts LoopFacts.

(** Twelve minus thirty. *)
Lemma tools_compute_on_the_numbers_written_example :
  @integers quiet_world (@codepoints quiet_world "12 minus 30")
    = [@codepoints quiet_world (str 12); @codepoints quiet_world (str 30)]
  /\ @subtract_two_numbers quiet_world "12 minus 30"
     = Ok "The difference when subtracting 30 from 12 is -18.".
Proof.
  split; [reflexivity|].
  exact (proj1 (proj2 (@tools_compute_on_the_numbers_written quiet_world
                         "12 minus 30" 12 30 []
                         ltac:(lia) ltac:(lia) eq_refl eq_refl eq_refl))).
Defined.

(** A padded, lower-case, talkative reply. *)
Lemma route_ignores_case_whitespace_and_trailing_text_example :
  decide (merge (mkState (Some "2 and 3") None None)
            (set_llm_response
               (@upper chatty_world (@strip chatty_world "  add these, please
"))))
  = "add_tool".
Proof.
  refine (proj1 (proj2 (proj2 (@route_ignores_case_whitespace_and_trailing_text chatty_world
                                 (mkState (Some "2 and 3") None None) start eq_refl))
                   "  " "add" " these, please
" _ _) _); reflexivity.
Defined.

(** One sum and then EXIT. *)
Lemma loop_ends_at_the_first_exit_line_example :
  exists w',
    @main_loop adding_world 2 start = Ok (Exited, w')
    /\ chats w' = 1%nat /\ inputs w' = 2%nat /\ uuids w' = 0%nat
    /\ length (stdout w') = 5%nat
    /\ last (stdout w') = Some "Goodbye!".
Proof.
  destruct (@loop_ends_at_the_first_exit_line adding_world 1 0 start) as [Hraise|Hok].
  - intros i Hi. assert (i = 0%nat) as -> by lia. reflexivity.
  - reflexivity.
  - vm_compute in Hraise. discriminate.
  - exact Hok.
Defined.

End ArithmeticExamples.

(* ===================================================================== *)
(** * The product-model assistant at work                                 *)
(* ===================================================================== *)

Module ProductExamples.
Import PyStr Spec Sample Notions.
Import SiebelPmAssist BatchFacts SentinelFacts RepairFacts EchoFacts.

(** The batch that creates "Widget" and then meets an unknown type. *)
Lemma dispatcher_only_mints_and_prints_example :
  chats widget_after = chats start
  /\ inputs widget_after = inputs start
  /\ (uuids start <= uuids widget_after <= uuids start + 2)%nat
  /\ length (stdout widget_after)
     = (length (stdout start) + 2 * (uuids widget_after - uuids start))%nat.
Proof.
  exact (@dispatcher_only_mints_and_prints quiet_world
           [action "CREATEPRODUCT" "Widget"; action "FOO" "x"]
           (mkLoop (IdsDict ∅) []) start widget_loop widget_after eq_refl).
Defined.

(** A promotion and an unknown type: two lines, the second the line of the
    second action. *)
Lemma dispatcher_answers_one_line_per_action_example :
  exists rs,
    length rs = 2%nat
    /\ rs !! 1%nat = Some "Unknown action: FOO"
    /\ set_result ("Created promotion: Summer" +:+ nl +:+ "Unknown action: FOO")
       = set_result (join nl rs).
Proof.
  destruct (@dispatcher_answers_one_line_per_action quiet_world
              (mkState (Some "hi")
                 (Some (batch [action "CREATEPROMOTION" "Summer"; action "FOO" "x"]))
                 None None None)
              [action "CREATEPROMOTION" "Summer"; action "FOO" "x"] start
              (set_result ("Created promotion: Summer" +:+ nl +:+ "Unknown action: FOO"))
              start eq_refl eq_refl)
    as (rs & Hlen & Hlines & Hu).
  exists rs. split; [exact Hlen|].
  destruct rs as [|r1 [|r2 [|r3 rs]]]; try discriminate Hlen.
  destruct (Hlines 1%nat (action "FOO" "x") r2 eq_refl eq_refl)
    as (si & wi & s1 & w1 & Hpre & Hsi & Hpass & Hs1).
  injection Hpre as <- <-. injection Hpass as <- _. cbn in Hs1.
  injection Hsi as <-. injection Hs1 as <-.
  split; [reflexivity | exact Hu].
Defined.

(** "createProduct" is dispatched as "CREATEPRODUCT". *)
Lemma action_type_is_read_in_upper_case_example :
  @dispatch_action quiet_world (mkLoop (IdsDict ∅) []) (action "createProduct" "Widget") start
  = @dispatch_action quiet_world (mkLoop (IdsDict ∅) []) (action "CREATEPRODUCT" "Widget") start.
Proof.
  refine (@action_type_is_read_in_upper_case quiet_world (mkLoop (IdsDict ∅) [])
            [("type", JStr "createProduct"); ("name", JStr "Widget")]
            [("type", JStr "CREATEPRODUCT"); ("name", JStr "Widget")]
            "createProduct" "CREATEPRODUCT" start eq_refl eq_refl eq_refl _).
  intros key Hkey. cbn [dict_get].
  destruct (String.eqb_spec "type" key); [congruence | reflexivity].
Defined.

(** The promotion tool without a name. *)
Lemma name_only_tools_ask_for_the_name_exactly_when_it_is_empty_example :
  exists label,
    (mret (OutStr (@create_promotion "")) : M tool_out) start
    = Ok (OutStr ("MISSING_FIELDS:" +:+ label), start)
    /\ fields_of ("MISSING_FIELDS:" +:+ label) = [label]
    /\ is_state_key (@normalize_key quiet_world label) = false.
Proof.
  exact (proj1 (@name_only_tools_ask_for_the_name_exactly_when_it_is_empty quiet_world
                  "CREATEPROMOTION" (fun name => mret (OutStr (create_promotion name)))
                  start eq_refl)).
Defined.

(** A price list without a name and without a price. *)
Lemma pricelist_sentinel_reads_back_as_its_fields_example :
  fields_of (@create_pricelist quiet_world "" "iPhone 16" "" "USD" None)
  = ["Price List Name"; "Price"].
Proof.
  refine (proj1 (@pricelist_sentinel_reads_back_as_its_fields quiet_world
                   "" "iPhone 16" "" "USD" None _)). done.
Defined.

(** The answer "USD" stored under "currency_code". *)
Lemma repair_answers_do_not_reach_the_graph_example :
  graph_input (<["currency_code" := "USD"]> {["user_input" := "price iPhone 16"]})
  = graph_input {["user_input" := "price iPhone 16"]}.
Proof.
  exact (proj1 (@repair_answers_do_not_reach_the_graph stubborn_world
                  ["Currency Code"] {["user_input" := "price iPhone 16"]} start
                  (<["currency_code" := "USD"]> {["user_input" := "price iPhone 16"]})
                  (mkWorld 0 0 1 ["Please provide Currency Code: "]) eq_refl eq_refl)).
Defined.

(** A promotion first, then a price list without a currency: the sentinel
    is printed, nothing is asked. *)
Lemma only_the_first_line_can_start_a_repair_example :
  exists w',
    @retry_loop promotion_first_world 3 {["user_input" := "promote and price"]} start
    = Ok (Some {["user_input" := "promote and price"]}, w')
    /\ inputs w' = 0%nat
    /\ last (stdout w') = Some ("Bot: Created promotion: Summer" +:+ nl +:+
                                "MISSING_FIELDS:Currency Code").
Proof.
  eexists. split; [|split].
  - refine (@only_the_first_line_can_start_a_repair promotion_first_world
              {["user_input" := "promote and price"]} start
              (action "CREATEPROMOTION" "Summer")
              [pricelist_action "NA pricelist" "iPhone 16" "1000" ""]
              (mkLoop (IdsDict ∅)
                 ["Created promotion: Summer"; "MISSING_FIELDS:Currency Code"])
              _ "Created promotion: Summer" 2 eq_refl eq_refl eq_refl eq_refl).
  - reflexivity.
  - reflexivity.
Defined.

(** The turn that creates "Widget" and prices it. *)
Lemma turn_calls_the_model_once_and_always_answers_example :
  exists st' w',
    @graph_invoke widget_world {["user_input" := "create Widget and price it"]} start
    = Ok (st', w')
    /\ chats w' = 1%nat /\ inputs w' = 0%nat
    /\ is_Some (result st')
    /\ length (stdout w') = 3%nat.
Proof.
  destruct (@graph_invoke widget_world {["user_input" := "create Widget and price it"]} start)
    as [[st' w']|e] eqn:Hrun; [|vm_compute in Hrun; discriminate].
  exists st', w'. split; [reflexivity|].
  destruct (@turn_calls_the_model_once_and_always_answers widget_world _ _ _ _ Hrun)
    as (Hc & Hi & _ & _ & Hres & Hout).
  repeat split; try assumption.
  vm_compute in Hrun. injection Hrun as <- <-. reflexivity.
Defined.

(** One line and then "Quit", with a model that answers in prose. *)
Lemma session_echoes_every_line_when_no_reply_is_json_example :
  exists state' w',
    @main_loop prose_world 2 1 ∅ start = Ok (Exited state', w')
    /\ chats w' = 1%nat
    /\ stdout w' =
         ["You: "; "DEBUG LLM response: " +:+ render no_actions; "Bot: You said: hello";
          "You: "; "Goodbye!"].
Proof.
  destruct (@session_echoes_every_line_when_no_reply_is_json prose_world 1 0 ∅ start)
    as (state' & w' & Hrun & Hc & _ & _ & Hout & _).
  - intros k p. reflexivity.
  - intros i Hi. assert (i = 0%nat) as -> by lia. reflexivity.
  - reflexivity.
  - exists state', w'. split; [exact Hrun|]. split; [exact Hc|]. exact Hout.
Defined.

(** "Widget" created twice and then priced. *)
Lemma a_later_creation_replaces_the_identifier_example :
  exists w2,
    @for_each _ _ (@dispatch_action quiet_world)
      [action "CREATEPRODUCT" "Widget"; action "CREATEPRODUCT" "Widget";
       pricelist_action "NA pricelist" "Widget" "1000" "USD"]
      (mkLoop (IdsDict ∅) []) start
    = Ok (mkLoop (IdsDict (<["Widget" := JStr "id-1"]> ∅))
            [render (product_result "id-0" "Widget");
             render (product_result "id-1" "Widget");
             "Sample REST request for Siebel price list item:
" +:+ render (pricelist_payload "NA pricelist" (JStr "id-1") "1000" "USD")], w2).
Proof.
  eexists.
  refine (@a_later_creation_replaces_the_identifier quiet_world
            "Widget" "NA pricelist" "1000" "USD" ∅ [] start _ _ _ _); done.
Defined.

End ProductExamples.
